(** * viur-core: colour-bone validation and the HTML renderer

    A shallow embedding of
      - [src/bones/colorBone.py]           ([colorBone.__init__], [colorBone.fromClient]),
      - [src/core/render/html/default.py]  ([Render.getTemplateFileName],
        [Render.renderBoneStructure], [Render.renderSkelStructure],
        [Render.renderBoneValue], [Render.list], [Render.listRootNodes]),
    together with the properties of these functions.

    Python strings are byte strings ([string], a list of [ascii]); Python
    exceptions are the [Raise] outcomes of a small error monad; Python
    dictionaries keep their insertion order and are association lists, except
    the request data and the error mapping of a skeleton, which are only looked
    up by name and are [gmap]s. *)

From Stdlib Require Import ZArith Ascii String List Bool Lia.
From stdpp Require Import base option list strings gmap pretty.

#[local] Set Warnings "-register-all".

Local Open Scope string_scope.
Local Open Scope list_scope.

(** ** Exceptions and outcomes *)

Inductive exn : Type :=
  | AssertionError
  | AttributeError
  | IndexError
  | KeyError
  | TypeError
  | NotFound (msg : string).

(** [errors.NotFound] is the only subclass of [errors.HTTPException] raised in
    this fragment. *)
Definition is_HTTPException (e : exn) : bool :=
  match e with NotFound _ => true | _ => false end.

Inductive outcome (A : Type) : Type :=
  | Ret (a : A)
  | Raise (e : exn).
Arguments Ret {A} a.
Arguments Raise {A} e.

#[global] Instance outcome_ret : MRet outcome := @Ret.
#[global] Instance outcome_bind : MBind outcome :=
  fun A B f m => match m with Ret a => f a | Raise e => Raise e end.

(** ** Python values *)

(** The function installed as [renderPreparation] on an entity. *)
Inductive hook : Type := RenderBoneValue.

(** The values that reach the code under study.  An entity is a
    [SkeletonInstance]: an object with an identity, a settable
    [renderPreparation] attribute and named fields. *)
Inductive pyval : Type :=
  | VNone
  | VBool (b : bool)
  | VInt (n : Z)
  | VStr (s : string)
  | VList (xs : list pyval)
  | VDict (kvs : list (pyval * pyval))
  | VEntity (oid : nat) (renderPreparation : option hook) (fields : list (string * pyval))
  | VDbKey (k : string).

(** ** Strings *)

Module PyStr.

Definition lower_ascii (c : ascii) : ascii :=
  let n := nat_of_ascii c in
  if (65 <=? n)%nat && (n <=? 90)%nat then ascii_of_nat (n + 32) else c.

(** [s.lower()] *)
Fixpoint lower (s : string) : string :=
  match s with
  | EmptyString => EmptyString
  | String c s' => String (lower_ascii c) (lower s')
  end.

(** [s.count(c)] for a one-character [c] *)
Fixpoint count (c : ascii) (s : string) : nat :=
  match s with
  | EmptyString => 0
  | String d s' => (if Ascii.eqb d c then 1 else 0) + count c s'
  end.

(** [c in alphabet] for a one-character [c] *)
Fixpoint mem (c : ascii) (alphabet : string) : bool :=
  match alphabet with
  | EmptyString => false
  | String d a' => Ascii.eqb c d || mem c a'
  end.

(** [all(c in alphabet for c in s)] *)
Fixpoint all_in (alphabet : string) (s : string) : bool :=
  match s with
  | EmptyString => true
  | String c s' => mem c alphabet && all_in alphabet s'
  end.

(** [s[i]]: raises [IndexError] out of range *)
Definition index (s : string) (i : nat) : outcome string :=
  match String.get i s with
  | Some c => Ret (String c EmptyString)
  | None => Raise IndexError
  end.

(** [s[i:j]]: slices never raise *)
Definition slice (s : string) (i j : nat) : string :=
  String.substring i (j - i) s.

(** [n * s] *)
Fixpoint times (n : nat) (s : string) : string :=
  match n with
  | O => EmptyString
  | S n' => s +:+ times n' s
  end.

(** [needle in s] *)
Fixpoint contains (needle s : string) : bool :=
  String.prefix needle s ||
  match s with
  | EmptyString => false
  | String _ s' => contains needle s'
  end.

(** [s.startswith(p)] *)
Definition startswith (s p : string) : bool := String.prefix p s.

(** [s.split(sep)[0]] for a one-character [sep] *)
Fixpoint split_head (sep : ascii) (s : string) : string :=
  match s with
  | EmptyString => EmptyString
  | String c s' => if Ascii.eqb c sep then EmptyString else String c (split_head sep s')
  end.

End PyStr.

(** ** colorBone *)

Module ColorBone.

Record colorBone : Type := mkColorBone {
  mode : string;
  value : pyval
}.

(** [colorBone.__init__(self, mode="rgb", *args, **kwargs)].  [baseBone.__init__]
    is outside the fragment; the value slot it leaves behind is [value0]. *)
Definition init (mode : string) (value0 : pyval) : outcome colorBone :=
  if bool_decide (mode ∈ ["rgb"; "rgba"]) then Ret (mkColorBone mode value0)
  else Raise AssertionError.

Definition set_value (self : colorBone) (v : string) : colorBone :=
  mkColorBone (mode self) (VStr v).

Definition hexchars : string := "#0123456789abcdef".

(** [value.lower()]: only strings have the method *)
Definition py_lower (v : pyval) : outcome string :=
  match v with
  | VStr s => Ret (PyStr.lower s)
  | _ => Raise AttributeError
  end.

(** The [rgb] branch of [fromClient], after the character checks. *)
Definition fromClient_rgb (self : colorBone) (value : string)
  : outcome (option string * colorBone) :=
  let value := if (String.length value =? 3)%nat then "#" +:+ value else value in
  value ←
    (if (String.length value =? 4)%nat then
       v1 ← PyStr.index value 1;
       v2 ← PyStr.index value 2;
       v3 ← PyStr.index value 3;
       Ret (PyStr.slice value 0 2 +:+ v1 +:+ PyStr.times 2 v2 +:+ PyStr.times 2 v3)
     else Ret value);
  if (String.length value =? 6)%nat || (String.length value =? 7)%nat then
    let value := if (String.length value =? 6)%nat then "#" +:+ value else value in
    Ret (None, set_value self value)
  else Ret (Some "Invalid value entered", self).

(** The [rgba] branch of [fromClient]. *)
Definition fromClient_rgba (self : colorBone) (value : string)
  : outcome (option string * colorBone) :=
  if (String.length value =? 8)%nat || (String.length value =? 9)%nat then
    let value := if (String.length value =? 8)%nat then "#" +:+ value else value in
    Ret (None, set_value self value)
  else Ret (Some "Invalid value entered", self).

(** [colorBone.fromClient(self, name, data)]: the returned message ([None] for
    success) and the bone afterwards. *)
Definition fromClient (self : colorBone) (name : string) (data : gmap string pyval)
  : outcome (option string * colorBone) :=
  let value := match data !! name with Some v => v | None => VNone end in
  if negb (String.eqb (mode self) "rgb") && negb (String.eqb (mode self) "rgba") then
    Ret (Some "Invalid mode selected", self)
  else
    match value with
    | VNone => Ret (None, self)
    | _ =>
      value ← py_lower value;
      if (1 <? PyStr.count "#" value)%nat then Ret (Some "Invalid value entered", self)
      else if negb (PyStr.all_in hexchars value) then Ret (Some "Invalid value entered", self)
      else if String.eqb (mode self) "rgb" then fromClient_rgb self value
      else if String.eqb (mode self) "rgba" then fromClient_rgba self value
      else Ret (None, self)
    end.

End ColorBone.

(** ** Python object protocol on [pyval] *)

Module Py.

(** [bool(v)].  Entities and datastore keys define neither [__bool__] nor
    [__len__] in this fragment and are true. *)
Definition truthy (v : pyval) : bool :=
  match v with
  | VNone => false
  | VBool b => b
  | VInt n => negb (n =? 0)%Z
  | VStr s => negb (String.eqb s "")
  | VList xs => match xs with [] => false | _ => true end
  | VDict kvs => match kvs with [] => false | _ => true end
  | VEntity _ _ _ => true
  | VDbKey _ => true
  end.

Definition is_list (v : pyval) : bool :=
  match v with VList _ => true | _ => false end.

Definition is_dict (v : pyval) : bool :=
  match v with VDict _ => true | _ => false end.

(** Lists and dictionaries cannot be dictionary keys. *)
Definition hashable (v : pyval) : bool :=
  match v with VList _ | VDict _ => false | _ => true end.

(** [a == b] on hashable values: booleans are the integers 0 and 1,
    entities are compared by identity. *)
Definition key_eqb (a b : pyval) : bool :=
  match a, b with
  | VNone, VNone => true
  | VBool x, VBool y => Bool.eqb x y
  | VBool x, VInt n | VInt n, VBool x => (Z.b2z x =? n)%Z
  | VInt m, VInt n => (m =? n)%Z
  | VStr s, VStr t => String.eqb s t
  | VEntity i _ _, VEntity j _ _ => (i =? j)%nat
  | VDbKey s, VDbKey t => String.eqb s t
  | _, _ => false
  end.

(** Lookup in an insertion-ordered dictionary. *)
Fixpoint dict_get {V : Type} (k : pyval) (kvs : list (pyval * V)) : option V :=
  match kvs with
  | [] => None
  | (k', v) :: rest => if key_eqb k' k then Some v else dict_get k rest
  end.

(** [d[k] = v]: an existing key keeps its place, a new one goes last. *)
Fixpoint dict_set {V : Type} (k : pyval) (v : V) (kvs : list (pyval * V))
  : list (pyval * V) :=
  match kvs with
  | [] => [(k, v)]
  | (k', v') :: rest =>
      if key_eqb k' k then (k', v) :: rest else (k', v') :: dict_set k v rest
  end.

(** [d.update(e)] *)
Definition dict_update {V : Type} (d e : list (pyval * V)) : list (pyval * V) :=
  fold_left (fun acc kv => dict_set kv.1 kv.2 acc) e d.

Definition dict_keys {V : Type} (d : list (pyval * V)) : list pyval := map fst d.

(** [k in d]: hashes [k] first. *)
Definition dict_contains {V : Type} (k : pyval) (d : list (pyval * V)) : outcome bool :=
  if hashable k then Ret (bool_decide (is_Some (dict_get k d))) else Raise TypeError.

Fixpoint assoc (k : string) (fields : list (string * pyval)) : option pyval :=
  match fields with
  | [] => None
  | (k', v) :: rest => if String.eqb k' k then Some v else assoc k rest
  end.

(** [v[k]] for a string literal [k]. *)
Definition getitem (v : pyval) (k : string) : outcome pyval :=
  match v with
  | VDict kvs =>
      match dict_get (VStr k) kvs with Some x => Ret x | None => Raise KeyError end
  | VEntity _ _ fields =>
      match assoc k fields with Some x => Ret x | None => Raise KeyError end
  | _ => Raise TypeError
  end.

(** [v.renderPreparation = self.renderBoneValue]: the object afterwards. *)
Definition set_renderPreparation (v : pyval) : outcome pyval :=
  match v with
  | VEntity oid _ fields => Ret (VEntity oid (Some RenderBoneValue) fields)
  | _ => Raise AttributeError
  end.

Fixpoint chars (s : string) : list pyval :=
  match s with
  | EmptyString => []
  | String c s' => VStr (String c EmptyString) :: chars s'
  end.

(** [for x in v] *)
Definition iter (v : pyval) : outcome (list pyval) :=
  match v with
  | VList xs => Ret xs
  | VDict kvs => Ret (dict_keys kvs)
  | VStr s => Ret (chars s)
  | VEntity _ _ fields => Ret (map (fun kv => VStr kv.1) fields)
  | _ => Raise TypeError
  end.

(** [str(v)]; [str_object] is the [__str__] of entities and keys. *)
Definition str (str_object : pyval -> string) (v : pyval) : string :=
  match v with
  | VNone => "None"
  | VBool true => "True"
  | VBool false => "False"
  | VInt n => pretty n
  | VStr s => s
  | _ => str_object v
  end.

Definition truthy_str (o : option string) : bool :=
  match o with Some s => negb (String.eqb s "") | None => false end.

End Py.

(** ** Template files *)

Module OsPath.

Fixpoint endswith_sep (s : string) : bool :=
  match s with
  | EmptyString => false
  | String c EmptyString => Ascii.eqb c "/"
  | String _ s' => endswith_sep s'
  end.

Definition join2 (path b : string) : string :=
  if PyStr.startswith b "/" then b
  else if String.eqb path "" || endswith_sep path then path +:+ b
  else path +:+ "/" +:+ b.

(** [os.path.join(a, *p)] of [posixpath] *)
Definition join (a : string) (p : list string) : string := fold_left join2 p a.

End OsPath.

Module Templates.

(** The module a renderer is attached to, as far as [dir(self.parent)] is
    asked about it. *)
Record parentModule : Type := mkParent {
  parent_listTemplate : option string;
  parent_listRepositoriesTemplate : option string
}.

Record Render : Type := mkRender {
  parent : option parentModule;
  htmlpath : option string;         (* [self.htmlpath], when [dir(self)] has it *)
  listTemplate : string;            (* "list" in the class *)
  listRepositoriesTemplate : string (* "list_repositories" in the class *)
}.

Definition defaultRender : Render := mkRender None None "list" "list_repositories".

(** What [getTemplateFileName] reads from its surroundings. *)
Record world : Type := mkWorld {
  style : option string;           (* [currReq.kwargs["style"]], when present *)
  currentLanguage : option string; (* [currentLanguage.get()] *)
  projectBasePath : string;        (* [utils.projectBasePath] *)
  isfile : string -> bool          (* [os.path.isfile] *)
}.

Definition validChars : string := "abcdefghijklmnopqrstuvwxyz1234567890-".

Definition stylePostfix (w : world) (ignoreStyle : bool) : string :=
  match style w with
  | Some st =>
      if negb ignoreStyle && PyStr.all_in validChars (PyStr.lower st)
      then "_" +:+ st else ""
  | None => ""
  end.

Definition fnames (w : world) (template : string) (ignoreStyle : bool) : list string :=
  let stylePostfix := stylePostfix w ignoreStyle in
  match currentLanguage w with
  | Some lang =>
      if negb (String.eqb lang "") then
        [ OsPath.join lang [template +:+ stylePostfix +:+ ".html"];
          template +:+ stylePostfix +:+ ".html";
          OsPath.join lang [template +:+ ".html"];
          template +:+ ".html" ]
      else [template +:+ stylePostfix +:+ ".html"; template +:+ ".html"]
  | None => [template +:+ stylePostfix +:+ ".html"; template +:+ ".html"]
  end.

Definition htmlpath_of (self : Render) : string :=
  match htmlpath self with Some h => h | None => "html" end.

(** [Render.getTemplateFileName(self, template, ignoreStyle=False)] *)
Definition getTemplateFileName (self : Render) (w : world)
    (template : string) (ignoreStyle : bool) : outcome string :=
  let htmlpath := htmlpath_of self in
  let fnames := fnames w template ignoreStyle in
  let prefix := PyStr.split_head "_" template in
  match find (fun fn => isfile w (OsPath.join (projectBasePath w) [htmlpath; prefix; fn])) fnames with
  | Some fn => Ret (prefix +:+ "/" +:+ fn)
  | None =>
  match find (fun fn => isfile w (OsPath.join (projectBasePath w) [htmlpath; fn])) fnames with
  | Some fn => Ret fn
  | None =>
  match find (fun fn => isfile w (OsPath.join (projectBasePath w) ["viur"; "core"; "template"; fn])) fnames with
  | Some fn => Ret fn
  | None => Raise (NotFound ("Template " +:+ template +:+ " not found."))
  end end end.

(** A call of [getTemplateFileName] that also records the requested name. *)
Definition traced (self : Render) (w : world) (tpl : string) (log : list string)
  : outcome string * list string :=
  (getTemplateFileName self w tpl false, log ++ [tpl]).

(** The [try]/[except errors.HTTPException] of [list] and [listRootNodes],
    followed by the second call whose result goes to [get_template]. *)
Definition resolve_with_fallback (self : Render) (w : world) (tpl : string)
    (log : list string) : outcome string * list string :=
  let '(r, log) := traced self w tpl log in
  match r with
  | Ret fn => traced self w tpl log
  | Raise e => if is_HTTPException e then traced self w "list" log else (Raise e, log)
  end.

(** [Render.list]: the template name after the defaults. *)
Definition list_tpl (self : Render) (tpl : option string) : string :=
  let tpl :=
    match parent self with
    | Some p =>
        match parent_listTemplate p with
        | Some t => if negb (Py.truthy_str tpl) then Some t else tpl
        | None => tpl
        end
    | None => tpl
    end in
  match tpl with
  | Some t => if negb (String.eqb t "") then t else listTemplate self
  | None => listTemplate self
  end.

(** [Render.list(self, skellist, tpl=None, ...)] up to [template.render]:
    the file handed to [get_template], the prepared [skellist], and the
    names [getTemplateFileName] was asked for. *)
Definition list_ (self : Render) (w : world) (skellist : list pyval)
    (tpl : option string) : outcome (string * list pyval) * list string :=
  let '(r, log) := resolve_with_fallback self w (list_tpl self tpl) [] in
  (fn ← r; skellist ← mapM Py.set_renderPreparation skellist; Ret (fn, skellist), log).

(** [Render.listRootNodes]: the template name after the defaults. *)
Definition listRootNodes_tpl (self : Render) (tpl : option string) : outcome string :=
  tpl ←
    match parent self with
    | Some p =>
        match parent_listRepositoriesTemplate p with
        | Some _ =>
            if Py.truthy_str tpl then Ret tpl
            else match parent_listTemplate p with
                 | Some t => Ret (Some t)
                 | None => Raise AttributeError
                 end
        | None => Ret tpl
        end
    | None => Ret tpl
    end;
  Ret (if Py.truthy_str tpl then default "" tpl else listRepositoriesTemplate self).

(** [Render.listRootNodes(self, repos, tpl=None, ...)] up to [template.render]. *)
Definition listRootNodes (self : Render) (w : world) (tpl : option string)
  : outcome string * list string :=
  match listRootNodes_tpl self tpl with
  | Ret t => resolve_with_fallback self w t []
  | Raise e => (Raise e, [])
  end.

End Templates.

(** ** Bones and skeletons *)

Module Skeletons.

(** A bone carries the attributes of [baseBone] and those of its class
    ([attrs]); the [type] tag is a separate string, as in the source.
    A skeleton is what [skel.items()] yields, in order, and [skel.errors]. *)
Inductive bone : Type :=
  | mkBone (descr type : string) (required multiple : bool) (params : pyval)
           (visible readOnly : bool) (languages : option (list string))
           (extra : attrs)
with attrs : Type :=
  | RelationalAttrs (module : string) (format : pyval)
                    (usingSkel : option skeleton) (refSkelCache : skeleton)
  | RecordAttrs (format : pyval) (usingSkel : option skeleton)
  | SelectAttrs (values : list (pyval * pyval))
  | DateAttrs (date time : bool)
  | NumericAttrs (precision : Z) (min max : pyval)
  | TextAttrs (validHtml : pyval)
  | CaptchaAttrs (publicKey : string)
  | BaseAttrs
with skeleton : Type :=
  | mkSkeleton (items : list (string * slot)) (errors : gmap string string)
with slot : Type :=
  | IsBone (b : bone)      (* [isinstance(bone, BaseBone)] *)
  | NotBone (v : pyval).

Definition descr (b : bone) : string := let 'mkBone d _ _ _ _ _ _ _ _ := b in d.
Definition type (b : bone) : string := let 'mkBone _ t _ _ _ _ _ _ _ := b in t.
Definition required (b : bone) : bool := let 'mkBone _ _ r _ _ _ _ _ _ := b in r.
Definition multiple (b : bone) : bool := let 'mkBone _ _ _ m _ _ _ _ _ := b in m.
Definition params (b : bone) : pyval := let 'mkBone _ _ _ _ p _ _ _ _ := b in p.
Definition visible (b : bone) : bool := let 'mkBone _ _ _ _ _ v _ _ _ := b in v.
Definition readOnly (b : bone) : bool := let 'mkBone _ _ _ _ _ _ r _ _ := b in r.
Definition languages (b : bone) : option (list string) :=
  let 'mkBone _ _ _ _ _ _ _ l _ := b in l.
Definition extra (b : bone) : attrs := let 'mkBone _ _ _ _ _ _ _ _ e := b in e.

Definition items (s : skeleton) : list (string * slot) := let 'mkSkeleton i _ := s in i.
Definition errors (s : skeleton) : gmap string string := let 'mkSkeleton _ e := s in e.

(** [bone.type == t or bone.type.startswith(t + ".")] *)
Definition has_type (b : bone) (t : string) : bool :=
  String.eqb (type b) t || PyStr.startswith (type b) (t +:+ ".").

(** [bone.values] *)
Definition get_values (b : bone) : outcome (list (pyval * pyval)) :=
  match extra b with SelectAttrs values => Ret values | _ => Raise AttributeError end.

(** [bone.using is not None] *)
Definition using_is_not_None (b : bone) : outcome bool :=
  match extra b with
  | RelationalAttrs _ _ usingSkel _ | RecordAttrs _ usingSkel =>
      Ret (match usingSkel with Some _ => true | None => false end)
  | _ => Raise AttributeError
  end.

(** [bone.languages], as a Python value *)
Definition languages_value (b : bone) : pyval :=
  match languages b with Some ls => VList (map VStr ls) | None => VNone end.

(** [bool(bone.languages)] *)
Definition languages_truthy (b : bone) : bool :=
  match languages b with Some (_ :: _) => true | _ => false end.

(** What does not come from this fragment: [db.encodeKey] and the
    [__str__] of objects. *)
Record externals : Type := mkExternals {
  encodeKey : pyval -> outcome string;
  str_object : pyval -> string
}.

Abbreviation pdict := (list (pyval * pyval)).
Abbreviation structure := (list (pyval * list (pyval * pyval))).

Definition structure_value (r : structure) : pyval :=
  VDict (map (fun kd => (kd.1, VDict kd.2)) r).

(** The body of the loop of [renderSkelStructure], with
    [renderBoneStructure] as [rb]. *)
Fixpoint renderItems (rb : bone -> outcome pdict) (errors : gmap string string)
    (items : list (string * slot)) (res : structure) : outcome structure :=
  match items with
  | [] => Ret res
  | (key, IsBone b) :: rest =>
      if PyStr.contains "__" key then renderItems rb errors rest res
      else
        d ← rb b;
        let d := Py.dict_set (VStr "error")
                   (match errors !! key with Some msg => VStr msg | None => VNone end) d in
        renderItems rb errors rest (Py.dict_set (VStr key) d res)
  | (key, NotBone _) :: rest => renderItems rb errors rest res
  end.

Section WithExternals.

Variable ext : externals.

(** The body of [Render.renderBoneStructure(self, bone)]; the method
    [self.renderSkelStructure] it calls is [renderSkelStructure]. *)
Definition renderBoneStructure_body
    (renderSkelStructure : skeleton -> outcome structure) (b : bone) : outcome pdict :=
  let ret : pdict :=
    [ (VStr "descr", VStr (descr b));
      (VStr "type", VStr (type b));
      (VStr "required", VBool (required b));
      (VStr "multiple", VBool (multiple b));
      (VStr "params", params b);
      (VStr "visible", VBool (visible b));
      (VStr "readOnly", VBool (readOnly b)) ] in
  if has_type b "relational" then
    match extra b with
    | RelationalAttrs module format usingSkel refSkelCache =>
        usingSkel ← match usingSkel with
                | Some s => r ← renderSkelStructure s; Ret (structure_value r)
                | None => Ret VNone
                end;
        relskel ← renderSkelStructure refSkelCache;
        Ret (Py.dict_update ret
               [ (VStr "module", VStr module); (VStr "format", format);
                 (VStr "using", usingSkel); (VStr "relskel", structure_value relskel) ])
    | _ => Raise AttributeError
    end
  else if has_type b "record" then
    match extra b with
    | RelationalAttrs _ format usingSkel _ | RecordAttrs format usingSkel =>
        match usingSkel with
        | Some s =>
            r ← renderSkelStructure s;
            Ret (Py.dict_update ret
                   [ (VStr "format", format); (VStr "using", structure_value r) ])
        | None => Raise TypeError
        end
    | _ => Raise AttributeError
    end
  else if has_type b "select" then
    match extra b with
    | SelectAttrs values =>
        Ret (Py.dict_update ret
               [ (VStr "values",
                  VDict (fold_left
                           (fun acc kv => Py.dict_set kv.1 (VStr (Py.str (str_object ext) kv.2)) acc)
                           values []));
                 (VStr "multiple", VBool (multiple b)) ])
    | _ => Raise AttributeError
    end
  else if has_type b "date" then
    match extra b with
    | DateAttrs date time =>
        Ret (Py.dict_update ret [ (VStr "date", VBool date); (VStr "time", VBool time) ])
    | _ => Raise AttributeError
    end
  else if has_type b "numeric" then
    match extra b with
    | NumericAttrs precision min max =>
        Ret (Py.dict_update ret
               [ (VStr "precision", VInt precision); (VStr "min", min); (VStr "max", max) ])
    | _ => Raise AttributeError
    end
  else if has_type b "text" then
    match extra b with
    | TextAttrs validHtml =>
        Ret (Py.dict_update ret
               [ (VStr "validHtml", validHtml); (VStr "languages", languages_value b) ])
    | _ => Raise AttributeError
    end
  else if has_type b "str" then
    Ret (Py.dict_update ret
           [ (VStr "languages", languages_value b); (VStr "multiple", VBool (multiple b)) ])
  else if has_type b "captcha" then
    match extra b with
    | CaptchaAttrs publicKey => Ret (Py.dict_update ret [ (VStr "publicKey", VStr publicKey) ])
    | _ => Raise AttributeError
    end
  else Ret ret.

(** [Render.renderBoneStructure(self, bone)] *)
Fixpoint renderBoneStructure (b : bone) : outcome pdict :=
  renderBoneStructure_body
    (fun skel => renderItems renderBoneStructure (errors skel) (items skel) []) b.

(** [Render.renderSkelStructure(self, skel)] *)
Definition renderSkelStructure (skel : skeleton) : outcome structure :=
  renderItems renderBoneStructure (errors skel) (items skel) [].

End WithExternals.

(** ** Rendered values *)

(** What [renderBoneValue] returns: a plain value, a [KeyValueWrapper] or a
    [LanguageWrapper] (a dictionary that remembers [bone.languages]). *)
Inductive rendered : Type :=
  | RValue (v : pyval)
  | RKeyValue (key descr : pyval)
  | RLanguage (languages : list string) (kvs : list (pyval * rendered)).

(** One entry of a relational value: the body shared by the loop over a
    list and the single-dictionary case. *)
Definition render_relation (b : bone) (k : pyval) : outcome pyval :=
  with_using ← using_is_not_None b;
  usingData ←
    (if (with_using : bool) then
       rel ← Py.getitem k "rel";
       if Py.truthy rel then Py.set_renderPreparation rel else Ret VNone
     else Ret VNone);
  dest ← Py.getitem k "dest";
  dest ← Py.set_renderPreparation dest;
  Ret (VDict [ (VStr "dest", dest); (VStr "rel", usingData) ]).

Fixpoint render_relations (b : bone) (ks : list pyval) : outcome (list pyval) :=
  match ks with
  | [] => Ret []
  | k :: rest =>
      if negb (Py.truthy k) then render_relations b rest
      else
        r ← render_relation b k;
        rs ← render_relations b rest;
        Ret (r :: rs)
  end.

(** [{val: bone.values.get(val, val) for val in boneValue}] *)
Fixpoint render_choices (b : bone) (vals : list pyval) (acc : pdict) : outcome pdict :=
  match vals with
  | [] => Ret acc
  | val :: rest =>
      values ← get_values b;
      if Py.hashable val then
        render_choices b rest
          (Py.dict_set val (default val (Py.dict_get val values)) acc)
      else Raise TypeError
  end.

Section RenderValue.

Variable ext : externals.

(** The [elif] chain of [renderBoneValue]: what runs when the language
    branch is not taken. *)
Definition renderBoneValue_dispatch (b : bone) (boneValue : pyval) : outcome rendered :=
  if has_type b "select" then
    match boneValue with
    | VList vals => d ← render_choices b vals []; Ret (RValue (VDict d))
    | skelValue =>
        values ← get_values b;
        known ← Py.dict_contains skelValue values;
        if (known : bool) then
          match Py.dict_get skelValue values with
          | Some label => Ret (RKeyValue skelValue label)
          | None => Raise KeyError
          end
        else Ret (RKeyValue skelValue (VStr (Py.str (str_object ext) skelValue)))
    end
  else if has_type b "relational" then
    match boneValue with
    | VList ks => tmpList ← render_relations b ks; Ret (RValue (VList tmpList))
    | VDict _ => r ← render_relation b boneValue; Ret (RValue r)
    | _ => Ret (RValue VNone)
    end
  else if has_type b "record" then
    if Py.truthy boneValue then
      if multiple b then
        entries ← Py.iter boneValue;
        ret ← mapM Py.set_renderPreparation entries;
        Ret (RValue (VList ret))
      else
        value ← Py.set_renderPreparation boneValue;
        Ret (RValue value)
    else Ret (RValue VNone)
  else if String.eqb (type b) "password" then Ret (RValue (VStr ""))
  else if String.eqb (type b) "key" then
    if Py.truthy boneValue then s ← encodeKey ext boneValue; Ret (RValue (VStr s))
    else Ret (RValue VNone)
  else Ret (RValue boneValue).

(** The loop [for language in bone.languages] over a dictionary value. *)
Fixpoint render_languages (b : bone) (value : list (pyval * pyval))
    (langs : list string) (res : list (pyval * rendered))
  : outcome (list (pyval * rendered)) :=
  match langs with
  | [] => Ret res
  | language :: rest =>
      match Py.dict_get (VStr language) value with
      | Some v =>
          r ← renderBoneValue_dispatch b v;
          render_languages b value rest (Py.dict_set (VStr language) r res)
      | None => render_languages b value rest res
      end
  end.

(** [Render.renderBoneValue(self, bone, skel, key, boneValue,
    isLanguageWrapped=False)].  The recursive call passes
    [isLanguageWrapped=True], so it runs the [elif] chain. *)
Definition renderBoneValue (b : bone) (skel : skeleton) (key : pyval)
    (boneValue : pyval) (isLanguageWrapped : bool) : outcome rendered :=
  if languages_truthy b && negb isLanguageWrapped then
    let langs := default [] (languages b) in
    match boneValue with
    | VDict value => res ← render_languages b value langs []; Ret (RLanguage langs res)
    | _ => Ret (RLanguage langs [])
    end
  else renderBoneValue_dispatch b boneValue.

End RenderValue.

End Skeletons.

(** * Vocabulary of the properties *)

Import ColorBone Templates.

Definition valid_mode (self : colorBone) : Prop :=
  mode self = "rgb" \/ mode self = "rgba".

(** Number of characters of [v] other than ['#']. *)
Definition digit_count (v : string) : nat := String.length v - PyStr.count "#" v.

(** The three template roots, in the order of the three loops, with the name
    returned for a file found there. *)
Definition probes (self : Render) (w : world) (template : string) (ignoreStyle : bool)
  : list (string * string) :=
  let names := fnames w template ignoreStyle in
  let prefix := PyStr.split_head "_" template in
  map (fun fn => (OsPath.join (projectBasePath w) [htmlpath_of self; prefix; fn],
                  prefix +:+ "/" +:+ fn)) names
  ++ map (fun fn => (OsPath.join (projectBasePath w) [htmlpath_of self; fn], fn)) names
  ++ map (fun fn => (OsPath.join (projectBasePath w) ["viur"; "core"; "template"; fn], fn)) names.




Definition raises_NotFound {A} (o : outcome A) : Prop :=
  exists msg, o = Raise (NotFound msg).



Import Skeletons.

(** The skeletons a bone's attributes hold. *)
Definition attrs_skeletons (e : attrs) : list skeleton :=
  match e with
  | RelationalAttrs _ _ usingSkel refSkelCache => option_list usingSkel ++ [refSkelCache]
  | RecordAttrs _ usingSkel => option_list usingSkel
  | _ => []
  end.

(** A field is retained by [renderSkelStructure] when its name has no "__"
    and its value is a bone. *)
Definition retained (kv : string * slot) : bool :=
  negb (PyStr.contains "__" kv.1) && match kv.2 with IsBone _ => true | NotBone _ => false end.


(** A bone is well formed when its class provides the attributes that
    [renderBoneStructure] reads for its [type] tag, and so are the retained
    bones of the skeletons it reads. *)
Definition wf_bone_body (wf_skel : skeleton -> bool) (b : bone) : bool :=
  if has_type b "relational" then
    match extra b with
    | RelationalAttrs _ _ usingSkel refSkelCache =>
        match usingSkel with Some s => wf_skel s | None => true end && wf_skel refSkelCache
    | _ => false
    end
  else if has_type b "record" then
    match extra b with
    | RelationalAttrs _ _ (Some s) _ | RecordAttrs _ (Some s) => wf_skel s
    | _ => false
    end
  else if has_type b "select" then
    match extra b with SelectAttrs _ => true | _ => false end
  else if has_type b "date" then
    match extra b with DateAttrs _ _ => true | _ => false end
  else if has_type b "numeric" then
    match extra b with NumericAttrs _ _ _ => true | _ => false end
  else if has_type b "text" then
    match extra b with TextAttrs _ => true | _ => false end
  else if has_type b "str" then true
  else if has_type b "captcha" then
    match extra b with CaptchaAttrs _ => true | _ => false end
  else true.

Fixpoint wf_bone (b : bone) : bool :=
  wf_bone_body
    (fun s => forallb (fun kv : string * slot =>
                         let '(k, sl) := kv in
                         match sl with
                         | IsBone b' => PyStr.contains "__" k || wf_bone b'
                         | NotBone _ => true
                         end) (items s)) b.

Definition wf_slot (kv : string * slot) : bool :=
  let '(k, sl) := kv in
  match sl with
  | IsBone b' => PyStr.contains "__" k || wf_bone b'
  | NotBone _ => true
  end.

Definition wf_skel (s : skeleton) : bool := forallb wf_slot (items s).

(** The error entry of a rendered field. *)
Definition error_entry (errs : gmap string string) (key : string) : pyval :=
  match errs !! key with Some msg => VStr msg | None => VNone end.

(** [db.encodeKey] on keys, and a fixed [__str__]. *)
Definition sample_externals : externals :=
  mkExternals (fun v => match v with VDbKey k => Ret k | _ => Raise TypeError end)
              (fun _ => "<object>").

(** A skeleton with two string bones, one of them in error, an internal
    field and a value that is not a bone. *)
Definition sample_skel : skeleton :=
  mkSkeleton
    [ ("a", IsBone (mkBone "A" "str" true false VNone true false None BaseAttrs));
      ("__internal", IsBone (mkBone "I" "str" false false VNone false false None BaseAttrs));
      ("note", NotBone (VStr "not a bone"));
      ("b", IsBone (mkBone "B" "str.email" false false VNone true false None BaseAttrs)) ]
    {[ "a" := "Invalid value entered" ]}.

(** When [renderBoneValue] answers [None]: the language branch is not taken
    and the bone is relational with a value that is neither a list nor a
    dictionary, or a record or a key with a false value, or of a type without
    a branch of its own with the value [None]. *)
Definition renders_None (b : bone) (boneValue : pyval) (isLanguageWrapped : bool) : bool :=
  negb (languages_truthy b && negb isLanguageWrapped) &&
  (if has_type b "select" then false
   else if has_type b "relational" then
     negb (Py.is_list boneValue) && negb (Py.is_dict boneValue)
   else if has_type b "record" then negb (Py.truthy boneValue)
   else if String.eqb (type b) "password" then false
   else if String.eqb (type b) "key" then negb (Py.truthy boneValue)
   else match boneValue with VNone => true | _ => false end).

Definition str_bone : bone :=
  mkBone "Name" "str" false false VNone true false None BaseAttrs.

Definition password_bone : bone :=
  mkBone "Password" "password" true false VNone true false None BaseAttrs.

(** A password bone that declares languages. *)
Definition password_bone_i18n : bone :=
  mkBone "Password" "password" true false VNone true false (Some ["en"; "de"]) BaseAttrs.

(** Induction over bones and the skeletons nested in them. *)
Section BoneInduction.

Variables (P : bone -> Prop) (Q : skeleton -> Prop).
Hypothesis Hbone : forall b, Forall Q (attrs_skeletons (extra b)) -> P b.
Hypothesis Hskel : forall s,
  Forall (fun kv : string * slot =>
            match kv.2 with IsBone b => P b | NotBone _ => True end) (items s) -> Q s.

Fixpoint bone_skel_ind (b : bone) : P b :=
  Hbone b
    match b return Forall Q (attrs_skeletons (extra b)) with
    | mkBone _ _ _ _ _ _ _ _ e =>
        match e return Forall Q (attrs_skeletons e) with
        | RelationalAttrs _ _ (Some u) r =>
            @List.Forall_cons _ _ _ _ (skel_bone_ind u)
              (@List.Forall_cons _ _ _ _ (skel_bone_ind r) (@List.Forall_nil _ _))
        | RelationalAttrs _ _ None r =>
            @List.Forall_cons _ _ _ _ (skel_bone_ind r) (@List.Forall_nil _ _)
        | RecordAttrs _ (Some u) => @List.Forall_cons _ _ _ _ (skel_bone_ind u) (@List.Forall_nil _ _)
        | _ => @List.Forall_nil _ _
        end
    end
with skel_bone_ind (s : skeleton) : Q s :=
  let R := fun kv : string * slot =>
             match kv.2 with IsBone b => P b | NotBone _ => True end in
  Hskel s
    match s return Forall R (items s) with
    | mkSkeleton its _ =>
        (fix go (l : list (string * slot)) : Forall R l :=
           match l return Forall R l with
           | [] => @List.Forall_nil _ R
           | (k, sl) :: l' =>
               @List.Forall_cons _ R (k, sl) l'
                 match sl return R (k, sl) with
                 | IsBone b => bone_skel_ind b
                 | NotBone _ => I
                 end
                 (go l')
           end) its
    end.

End BoneInduction.

(** The sixteen lowercase hex digits, without ['#']. *)
Definition hexdigits : string := "0123456789abcdef".

(** What [fromClient] does with a supplied string once the mode is known to
    be valid: the checks on the lowered string, then the branch of the mode. *)
Definition fromClient_checked (self : colorBone) (v : string)
  : outcome (option string * colorBone) :=
  if (1 <? PyStr.count "#" v)%nat then Ret (Some "Invalid value entered", self)
  else if negb (PyStr.all_in hexchars v) then Ret (Some "Invalid value entered", self)
  else if String.eqb (mode self) "rgb" then fromClient_rgb self v
  else fromClient_rgba self v.

(** The lengths of the lowered input that each mode lets through. *)
Definition accepted_length (mode : string) (n : nat) : bool :=
  (String.eqb mode "rgb" && bool_decide (n ∈ [3; 4; 6; 7]))
  || (String.eqb mode "rgba" && bool_decide (n ∈ [8; 9])).


(** A skeleton reduced to the fields [renderSkelStructure] retains. *)
Definition retained_only (skel : skeleton) : skeleton :=
  mkSkeleton (List.filter retained (items skel)) (errors skel).

(** The seven entries every rendered bone starts with. *)
Definition base_entries (b : bone) : list (pyval * pyval) :=
  [ (VStr "descr", VStr (descr b));
    (VStr "type", VStr (type b));
    (VStr "required", VBool (required b));
    (VStr "multiple", VBool (multiple b));
    (VStr "params", params b);
    (VStr "visible", VBool (visible b));
    (VStr "readOnly", VBool (readOnly b)) ].

Definition is_Ret {A} (o : outcome A) : Prop := exists a, o = Ret a.

(** A relational bone with a structure for relation data, and a skeleton
    holding it beside a plain bone. *)
Definition relational_bone : bone :=
  mkBone "Owner" "relational.user" true false VNone true false None
    (RelationalAttrs "user" (VStr "$(dest.name)")
       (Some (mkSkeleton [("role", IsBone str_bone)] ∅))
       (mkSkeleton [("name", IsBone str_bone)] ∅)).

Definition nested_skel : skeleton :=
  mkSkeleton [ ("owner", IsBone relational_bone); ("title", IsBone str_bone) ]
             {[ "title" := "Too long" ]}.

(** The rendered structure of [nested_skel]. *)
Definition nested_structure : structure :=
  match renderSkelStructure sample_externals nested_skel with
  | Ret r => r
  | Raise _ => []
  end.

(** An entity whose [renderPreparation] is the renderer's [renderBoneValue]. *)
Definition armed (v : pyval) : Prop :=
  exists oid fields, v = VEntity oid (Some RenderBoneValue) fields.

(** [r] is the entity [e] with [renderPreparation] set. *)
Definition arms (e r : pyval) : Prop :=
  exists oid h fields, e = VEntity oid h fields /\ r = VEntity oid (Some RenderBoneValue) fields.

Definition is_entity (v : pyval) : bool :=
  match v with VEntity _ _ _ => true | _ => false end.

(** The shape of one rendered relation of the bone [b]. *)
Definition relation_entry (b : bone) (e : pyval) : Prop :=
  exists dest rel,
    e = VDict [ (VStr "dest", dest); (VStr "rel", rel) ] /\
    armed dest /\ (rel = VNone \/ armed rel) /\
    (using_is_not_None b = Ret false -> rel = VNone).

(** The language branch of [renderBoneValue] is not taken. *)
Definition unwrapped (b : bone) (isLanguageWrapped : bool) : Prop :=
  languages_truthy b && negb isLanguageWrapped = false.

(** The rendering of the value stored for one language, if there is one and
    it renders. *)
Definition language_entry (ext : externals) (b : bone) (skel : skeleton) (key : pyval)
    (value : list (pyval * pyval)) (l : string) : option rendered :=
  match Py.dict_get (VStr l) value with
  | Some v =>
      match renderBoneValue ext b skel key v true with
      | Ret r => Some r
      | Raise _ => None
      end
  | None => None
  end.

(** A select bone, a record bone with several entries and a translated
    string bone. *)
Definition select_bone : bone :=
  mkBone "Colour" "select" false true VNone true false None
    (SelectAttrs [ (VStr "r", VStr "Red"); (VStr "g", VStr "Green") ]).

Definition record_bone : bone :=
  mkBone "Lines" "record" false true VNone true false None
    (RecordAttrs VNone (Some (mkSkeleton [("text", IsBone str_bone)] ∅))).

Definition str_bone_i18n : bone :=
  mkBone "Title" "str" false false VNone true false (Some ["en"; "de"]) BaseAttrs.

(** ** The subject and body of an email *)

Module Email.

(** The text a template renders to is a string of code points below 256.
    [str.isspace] on them: tab to carriage return, the four separators,
    space, next-line and no-break space. *)
Definition isspace (c : ascii) : bool :=
  let n := nat_of_ascii c in
  ((9 <=? n)%nat && (n <=? 13)%nat) || ((28 <=? n)%nat && (n <=? 32)%nat)
  || (n =? 133)%nat || (n =? 160)%nat.

(** The line boundaries of [str.splitlines]: line feed, vertical tab, form
    feed, carriage return, file, group and record separator, next-line. *)
Definition is_linebreak (c : ascii) : bool :=
  let n := nat_of_ascii c in
  ((10 <=? n)%nat && (n <=? 13)%nat) || ((28 <=? n)%nat && (n <=? 30)%nat)
  || (n =? 133)%nat.

(** [s.lstrip()] *)
Fixpoint lstrip (s : string) : string :=
  match s with
  | EmptyString => EmptyString
  | String c s' => if isspace c then lstrip s' else s
  end.

(** [s.splitlines()]: a carriage return followed by a line feed is one
    boundary, and a boundary at the very end opens no further line. *)
Fixpoint splitlines (s : string) : list string :=
  match s with
  | EmptyString => []
  | String c s' =>
      if is_linebreak c then
        EmptyString ::
          (if Ascii.eqb c "013" then
             match s' with
             | String d s'' => if Ascii.eqb d "010" then splitlines s'' else splitlines s'
             | EmptyString => splitlines s'
             end
           else splitlines s')
      else
        match splitlines s' with
        | [] => [String c EmptyString]
        | l :: ls => String c l :: ls
        end
  end.

(** [isinstance(skel, SkeletonInstance)] and the list case of [renderEmail]:
    the skeletons get [renderPreparation]; anything else is left alone. *)
Definition prepare (skel : pyval) : pyval :=
  match skel with
  | VEntity oid _ fields => VEntity oid (Some RenderBoneValue) fields
  | VList xs =>
      if forallb (fun x => match x with VEntity _ _ _ => true | _ => false end) xs
      then VList (map (fun x => match x with
                                | VEntity oid _ fields => VEntity oid (Some RenderBoneValue) fields
                                | _ => x
                                end) xs)
      else skel
  | _ => skel
  end.

(** The end of [renderEmail]: from the rendered text to the subject and the
    body; [linesep] is [os.linesep]. *)
Definition subject_and_body (linesep : string) (rendered : string)
  : outcome (string * string) :=
  let content := splitlines (lstrip rendered) in
  let content := if (length content =? 1)%nat then EmptyString :: content else content in
  match content with
  | [] => Raise IndexError
  | subject :: rest => Ret (subject, lstrip (String.concat linesep rest))
  end.

(** [Render.renderEmail(self, dests, file, template, skel, **kwargs)];
    [render] stands for loading the template and [tpl.render(skel=skel, ...)],
    which belong to the template engine. *)
Definition renderEmail (render : pyval -> outcome string) (linesep : string)
    (skel : pyval) : outcome (string * string) :=
  rendered ← render (prepare skel);
  subject_and_body linesep rendered.

End Email.

(** ** userBone *)

Module UserBone.

(** The attributes this class reads or writes; the rest of the bone belongs
    to [relationalBone]. *)
Record userBone : Type := mkUserBone {
  visible : bool;
  multiple : bool;
  creationMagic : bool;
  updateMagic : bool
}.

(** [userBone.__init__(self, creationMagic=False, updateMagic=False, *args,
    **kwargs)]; [visible0] and [multiple0] are what [relationalBone.__init__]
    leaves in the bone. *)
Definition init (creationMagic updateMagic : bool) (visible0 multiple0 : bool) : userBone :=
  if creationMagic || updateMagic
  then mkUserBone false false creationMagic updateMagic
  else mkUserBone visible0 multiple0 creationMagic updateMagic.

(** What [performMagic] asks of its surroundings. *)
Inductive call : Type :=
  | GetCurrentUser
  | FromClient (name : string) (data : gmap string pyval).

(** [userBone.performMagic(self, isAdd)]: the value returned and the calls
    made, in order.  [currentUser] is what [getCurrentUser()] answers,
    [fromClient] is [relationalBone.fromClient] of this bone and
    [str_object] the [__str__] of objects. *)
Definition performMagic (str_object : pyval -> string)
    (fromClient : string -> gmap string pyval -> outcome pyval)
    (currentUser : pyval) (self : userBone) (isAdd : bool)
  : outcome pyval * list call :=
  if updateMagic self || (creationMagic self && isAdd) then
    let user := currentUser in
    if Py.truthy user then
      match Py.getitem user "id" with
      | Ret id =>
          let data : gmap string pyval := {[ "user" := VStr (Py.str str_object id) ]} in
          (fromClient "user" data, [GetCurrentUser; FromClient "user" data])
      | Raise e => (Raise e, [GetCurrentUser])
      end
    else (fromClient "user" ∅, [GetCurrentUser; FromClient "user" ∅])
  else (Ret VNone, []).

End UserBone.

(** A rendered text is blank when it has nothing but whitespace. *)
Fixpoint blank (s : string) : bool :=
  match s with
  | EmptyString => true
  | String c s' => Email.isspace c && blank s'
  end.

(** No character of the string is a line boundary. *)
Fixpoint one_line (s : string) : bool :=
  match s with
  | EmptyString => true
  | String c s' => negb (Email.is_linebreak c) && one_line s'
  end.

(** The entry [e] rendered for the element [k] of a relational value: [dest]
    is the element's [dest] with [renderPreparation] set; [rel] is the
    element's [rel] with [renderPreparation] set when the bone has a [using]
    skeleton and that [rel] is true, and [None] otherwise. *)
Definition relation_of (b : bone) (k e : pyval) : Prop :=
  exists dest dest' rel',
    e = VDict [ (VStr "dest", dest'); (VStr "rel", rel') ] /\
    Py.getitem k "dest" = Ret dest /\ arms dest dest' /\
    ((using_is_not_None b = Ret false /\ rel' = VNone) \/
     (using_is_not_None b = Ret true /\
      exists rel, Py.getitem k "rel" = Ret rel /\
        ((Py.truthy rel = false /\ rel' = VNone) \/
         (Py.truthy rel = true /\ arms rel rel')))).

(** * Properties *)

#[local] Arguments String.append !_ _ / : simpl nomatch.

(** ** colorBone *)

Lemma bind_Ret {A B} (m : outcome A) (f : A -> outcome B) (y : B) :
  m ≫= f = Ret y -> exists x, m = Ret x /\ f x = Ret y.
Proof. destruct m as [x|e]; simpl; [eauto | discriminate]. Qed.

Lemma init_valid_mode m v0 b : init m v0 = Ret b -> valid_mode b.
Proof.
  unfold init, valid_mode. case_bool_decide as Hm; [|discriminate].
  intros [= <-]. simpl.
  rewrite !elem_of_cons, elem_of_nil in Hm. tauto.
Qed.

Lemma init_invalid_mode m v0 : m <> "rgb" -> m <> "rgba" -> init m v0 = Raise AssertionError.
Proof.
  intros H1 H2. unfold init. case_bool_decide as Hm; [|reflexivity].
  rewrite !elem_of_cons, elem_of_nil in Hm. tauto.
Qed.

Lemma fromClient_rgb_messages self v msg self' :
  fromClient_rgb self v = Ret (msg, self') ->
  (msg = None \/ msg = Some "Invalid value entered") /\ mode self' = mode self.
Proof.
  unfold fromClient_rgb. intros H.
  apply bind_Ret in H as (x & _ & H).
  destruct (_ || _); injection H as <- <-; auto.
Qed.

Lemma fromClient_rgba_messages self v msg self' :
  fromClient_rgba self v = Ret (msg, self') ->
  (msg = None \/ msg = Some "Invalid value entered") /\ mode self' = mode self.
Proof.
  unfold fromClient_rgba. destruct (_ || _); intros [= <- <-]; auto.
Qed.

Lemma fromClient_messages self name data msg self' :
  valid_mode self ->
  fromClient self name data = Ret (msg, self') ->
  (msg = None \/ msg = Some "Invalid value entered") /\ mode self' = mode self.
Proof.
  intros Hm. unfold fromClient.
  assert (negb (mode self =? "rgb")%string && negb (mode self =? "rgba")%string = false) as ->.
  { destruct Hm as [-> | ->]; reflexivity. }
  assert (forall v, (v ← py_lower v;
            if (1 <? PyStr.count "#" v)%nat then Ret (Some "Invalid value entered", self)
            else if negb (PyStr.all_in hexchars v) then Ret (Some "Invalid value entered", self)
            else if (mode self =? "rgb")%string then fromClient_rgb self v
            else if (mode self =? "rgba")%string then fromClient_rgba self v
            else Ret (None, self)) = Ret (msg, self') ->
          (msg = None \/ msg = Some "Invalid value entered") /\ mode self' = mode self) as Hgen.
  { intros v H. apply bind_Ret in H as (s & _ & H).
    destruct (1 <? _)%nat; [injection H as <- <-; auto|].
    destruct (negb _); [injection H as <- <-; auto|].
    destruct (mode self =? "rgb")%string; [eauto using fromClient_rgb_messages|].
    destruct (mode self =? "rgba")%string; [eauto using fromClient_rgba_messages|].
    injection H as <- <-; auto. }
  destruct (match data !! name with Some v => v | None => VNone end) eqn:Hv;
    try (apply Hgen).
  intros [= <- <-]; auto.
Qed.

Lemma lower_length s : String.length (PyStr.lower s) = String.length s.
Proof. induction s as [|c s IH]; simpl; congruence. Qed.

Ltac string_of_length s H :=
  repeat (destruct s as [|? s]; [try discriminate H | simpl in H; try discriminate H]).

(** Whatever [fromClient_rgb] stores has seven characters. *)
Lemma fromClient_rgb_stored self v self' :
  fromClient_rgb self v = Ret (None, self') ->
  exists s, self' = set_value self s /\ String.length s = 7.
Proof.
  unfold fromClient_rgb. intros H.
  destruct (String.length v =? 3)%nat eqn:H3.
  - apply Nat.eqb_eq in H3.
    destruct v as [|a [|b [|c [|? ?]]]]; try discriminate H3.
    simpl in H. injection H as <-. eexists; split; reflexivity.
  - destruct (String.length v =? 4)%nat eqn:H4.
    + apply Nat.eqb_eq in H4.
      destruct v as [|a [|b [|c [|d [|? ?]]]]]; try discriminate H4.
      simpl in H. injection H as <-. eexists; split; reflexivity.
    + simpl in H.
      destruct (String.length v =? 6)%nat eqn:H6; simpl in H.
      * injection H as <-. eexists; split; [reflexivity|].
        apply Nat.eqb_eq in H6. simpl. congruence.
      * destruct (String.length v =? 7)%nat eqn:H7; [|discriminate].
        injection H as <-. eexists; split; [reflexivity|]. by apply Nat.eqb_eq.
Qed.

(** Whatever [fromClient_rgba] stores has nine characters. *)
Lemma fromClient_rgba_stored self v self' :
  fromClient_rgba self v = Ret (None, self') ->
  exists s, self' = set_value self s /\ String.length s = 9.
Proof.
  unfold fromClient_rgba. intros H.
  destruct (String.length v =? 8)%nat eqn:H8; simpl in H.
  - injection H as <-. eexists; split; [reflexivity|].
    apply Nat.eqb_eq in H8. simpl. congruence.
  - destruct (String.length v =? 9)%nat eqn:H9; [|discriminate].
    injection H as <-. eexists; split; [reflexivity|]. by apply Nat.eqb_eq.
Qed.

(** A successful validation of a supplied string stores a string of seven
    characters in rgb mode and of nine in rgba mode. *)
Lemma fromClient_stored_length self name data v self' :
  data !! name = Some (VStr v) ->
  fromClient self name data = Ret (None, self') ->
  exists s, self' = set_value self s /\
    ((mode self = "rgb" /\ String.length s = 7) \/
     (mode self = "rgba" /\ String.length s = 9)).
Proof.
  intros Hd. unfold fromClient. rewrite Hd.
  destruct (negb _ && negb _) eqn:Hm; [discriminate|]. simpl.
  destruct (1 <? _)%nat; [discriminate|].
  destruct (negb (PyStr.all_in _ _)); [discriminate|].
  destruct (mode self =? "rgb")%string eqn:Hrgb.
  { apply String.eqb_eq in Hrgb. intros H.
    apply fromClient_rgb_stored in H as (s & -> & Hs). eauto. }
  destruct (mode self =? "rgba")%string eqn:Hrgba; [|discriminate Hm].
  apply String.eqb_eq in Hrgba. intros H.
  apply fromClient_rgba_stored in H as (s & -> & Hs). eauto.
Qed.

Lemma lower_ascii_hexchar c : PyStr.mem c hexchars = true -> PyStr.lower_ascii c = c.
Proof.
  unfold hexchars. simpl. intros H.
  repeat (apply orb_true_iff in H as [H|H];
          [apply Ascii.eqb_eq in H; subst c; reflexivity|]).
  discriminate.
Qed.

(** Lowering leaves a string over the colour alphabet as it is. *)
Lemma lower_hexchars v : PyStr.all_in hexchars v = true -> PyStr.lower v = v.
Proof.
  induction v as [|c v IH]; [reflexivity|]. simpl PyStr.all_in.
  intros [Hc Hv]%andb_true_iff. simpl. rewrite IH by assumption.
  f_equal. by apply lower_ascii_hexchar.
Qed.

Lemma count_le_length c v : PyStr.count c v <= String.length v.
Proof. induction v as [|d v IH]; simpl; [lia|]. destruct (Ascii.eqb d c); lia. Qed.

(** In rgb mode three or six hex digits, with at most one ['#'] anywhere, are
    always accepted. *)
Lemma fromClient_rgb_digits_accepted self v :
  PyStr.count "#" v <= 1 ->
  digit_count v = 3 \/ digit_count v = 6 ->
  exists s, fromClient_rgb self v = Ret (None, set_value self s).
Proof.
  unfold digit_count. intros Hc Hd.
  pose proof (count_le_length "#" v) as Hle.
  assert (String.length v = 3 \/ String.length v = 4
          \/ String.length v = 6 \/ String.length v = 7) as Hlen by lia.
  clear Hc Hd Hle. unfold fromClient_rgb.
  destruct Hlen as [H|[H|[H|H]]].
  - destruct v as [|a [|b [|c [|? ?]]]]; try discriminate H. simpl. eexists; reflexivity.
  - destruct v as [|a [|b [|c [|d [|? ?]]]]]; try discriminate H. simpl. eexists; reflexivity.
  - repeat (rewrite !H; simpl). eexists; reflexivity.
  - repeat (rewrite !H; simpl). eexists; reflexivity.
Qed.

(** C1 (the code departs from the claim): in rgb mode the input ["abcd"] is
    made of characters of the colour alphabet, has no ['#'] and four hex digits;
    the claim asks for the failure "Invalid value entered", but validation
    succeeds and stores ["abbccdd"], which does not start with ['#']. *)
Theorem C1_rgb_four_digits_stored :
  PyStr.all_in hexchars "abcd" = true /\
  PyStr.count "#" "abcd" = 0 /\
  digit_count "abcd" = 4 /\
  fromClient (mkColorBone "rgb" VNone) "color" {[ "color" := VStr "abcd" ]}
  = Ret (None, mkColorBone "rgb" (VStr "abbccdd")).
Proof. repeat split; vm_compute; reflexivity. Qed.

(** C2 (the code departs from the claim): in rgba mode nine hex digits without
    ['#'] are accepted and stored as they are, so the stored value has nine
    characters but no leading ['#']. *)
Theorem C2_rgba_nine_digits_stored :
  fromClient (mkColorBone "rgba" VNone) "color" {[ "color" := VStr "123456789" ]}
  = Ret (None, mkColorBone "rgba" (VStr "123456789")) /\
  PyStr.startswith "123456789" "#" = false.
Proof. split; vm_compute; reflexivity. Qed.

(** C3 (as claimed, refuted): the claim speaks of every mode, but the mode
    is tested before the value: a bone whose mode is "hsl" answers
    "Invalid mode selected" also when the field's name is absent. *)
Lemma C3_invalid_mode_counterexample :
  ~ (forall (self : colorBone) (name : string) (data : gmap string pyval),
       data !! name = None -> fromClient self name data = Ret (None, self)).
Proof.
  intros H.
  specialize (H (mkColorBone "hsl" VNone) "color" ∅ (lookup_empty _)).
  vm_compute in H. discriminate H.
Qed.

(** C3 (amended): when the field's name is absent from the request data,
    [fromClient] of a bone in mode rgb or rgba returns no error, and of a
    bone in any other mode returns "Invalid mode selected"; in both cases the
    bone, and so its value slot, is left unchanged. *)
Theorem C3_absent_value_no_change (self : colorBone) (name : string)
    (data : gmap string pyval) :
  data !! name = None ->
  (valid_mode self -> fromClient self name data = Ret (None, self)) /\
  (~ valid_mode self ->
   fromClient self name data = Ret (Some "Invalid mode selected", self)).
Proof.
  intros Hd. unfold fromClient, valid_mode. rewrite Hd. split.
  - intros [-> | ->]; reflexivity.
  - intros Hm.
    destruct (String.eqb_spec (mode self) "rgb") as [E|_]; [tauto|].
    destruct (String.eqb_spec (mode self) "rgba") as [E|_]; [tauto|].
    reflexivity.
Qed.

Lemma C3_absent_value_no_change_witness :
  fromClient (mkColorBone "rgba" (VStr "#00ff00ff")) "color" {[ "other" := VStr "abc" ]}
  = Ret (None, mkColorBone "rgba" (VStr "#00ff00ff")).
Proof.
  apply (C3_absent_value_no_change (mkColorBone "rgba" (VStr "#00ff00ff")) "color"
           {[ "other" := VStr "abc" ]}).
  - vm_compute. reflexivity.
  - right. reflexivity.
Defined.

(** C10: the constructor raises [AssertionError] for every mode other than
    "rgb" and "rgba"; a bone it returns has one of the two modes, keeps it
    through [fromClient], and never makes [fromClient] answer
    "Invalid mode selected". *)
Theorem C10_constructed_mode_valid (m : string) (value0 : pyval) :
  (m <> "rgb" -> m <> "rgba" -> init m value0 = Raise AssertionError) /\
  forall self, init m value0 = Ret self ->
    valid_mode self /\
    forall name data msg self',
      fromClient self name data = Ret (msg, self') ->
      msg <> Some "Invalid mode selected" /\ valid_mode self'.
Proof.
  split; [apply init_invalid_mode|].
  intros self Hinit. pose proof (init_valid_mode _ _ _ Hinit) as Hm.
  split; [assumption|]. intros name data msg self' H.
  destruct (fromClient_messages _ _ _ _ _ Hm H) as [Hmsg Hmode].
  split.
  - destruct Hmsg as [-> | ->]; discriminate.
  - unfold valid_mode. rewrite Hmode. exact Hm.
Qed.

Lemma C10_constructed_mode_valid_witness :
  valid_mode (mkColorBone "rgb" VNone) /\
  forall name data msg self',
    fromClient (mkColorBone "rgb" VNone) name data = Ret (msg, self') ->
    msg <> Some "Invalid mode selected" /\ valid_mode self'.
Proof.
  exact (proj2 (C10_constructed_mode_valid "rgb" VNone)
               (mkColorBone "rgb" VNone) eq_refl).
Defined.

(** ** Template files *)

Lemma find_app_outcome {A} (f : A -> bool) (l1 l2 : list A) :
  find f (l1 ++ l2) = match find f l1 with Some x => Some x | None => find f l2 end.
Proof. induction l1 as [|x l1 IH]; simpl; [reflexivity|]. destruct (f x); auto. Qed.

Lemma find_map_outcome {A B} (f : B -> bool) (g : A -> B) (l : list A) :
  find f (map g l) = option_map g (find (fun x => f (g x)) l).
Proof. induction l as [|x l IH]; simpl; [reflexivity|]. destruct (f (g x)); auto. Qed.

Lemma find_none_Forall {A} (f : A -> bool) (l : list A) :
  find f l = None <-> Forall (fun x => f x = false) l.
Proof.
  induction l as [|x l IH]; simpl.
  - split; [constructor | reflexivity].
  - destruct (f x) eqn:E.
    + split; [discriminate|]. intros H. inversion H; congruence.
    + rewrite IH. split; [by constructor|]. intros H. by inversion H.
Qed.

Lemma getTemplateFileName_probes self w template ignoreStyle :
  getTemplateFileName self w template ignoreStyle =
  match find (fun p => isfile w p.1) (probes self w template ignoreStyle) with
  | Some p => Ret p.2
  | None => Raise (NotFound ("Template " +:+ template +:+ " not found."))
  end.
Proof.
  unfold getTemplateFileName, probes.
  rewrite !find_app_outcome, !find_map_outcome. simpl.
  repeat (destruct (find _ _); simpl; [reflexivity|]). reflexivity.
Qed.

(** [getTemplateFileName] raises nothing but [NotFound]. *)
Lemma getTemplateFileName_raises self w template ignoreStyle e :
  getTemplateFileName self w template ignoreStyle = Raise e ->
  e = NotFound ("Template " +:+ template +:+ " not found.").
Proof.
  rewrite getTemplateFileName_probes. destruct (find _ _); [discriminate|]. congruence.
Qed.



(** The built-in root alone is enough, and a file in the application-specific
    subfolder wins over one in the built-in root. *)
Example getTemplateFileName_fallback_only :
  getTemplateFileName defaultRender
    (mkWorld None (Some "en") "/app"
       (fun p => String.eqb p "/app/viur/core/template/en/view.html")) "view" false
  = Ret "en/view.html".
Proof. vm_compute. reflexivity. Qed.

Example getTemplateFileName_prefers_subfolder :
  getTemplateFileName defaultRender
    (mkWorld None None "/app"
       (fun p => String.eqb p "/app/viur/core/template/user_view.html"
                 || String.eqb p "/app/html/user/user_view.html")) "user_view" false
  = Ret "user/user_view.html".
Proof. vm_compute. reflexivity. Qed.

(** A less specific name in the subfolder is found before a more specific one
    in the application's template root. *)
Example getTemplateFileName_tier_first :
  getTemplateFileName defaultRender
    (mkWorld (Some "print") (Some "en") "/app"
       (fun p => String.eqb p "/app/html/en/view_print.html"
                 || String.eqb p "/app/html/view/view.html")) "view" false
  = Ret "view/view.html".
Proof. vm_compute. reflexivity. Qed.

(** ** The list views *)

Lemma resolve_with_fallback_found self w tpl fn :
  getTemplateFileName self w tpl false = Ret fn ->
  resolve_with_fallback self w tpl [] = (Ret fn, [tpl; tpl]).
Proof. intros H. unfold resolve_with_fallback, traced. rewrite H. reflexivity. Qed.

Lemma resolve_with_fallback_retry self w tpl :
  raises_NotFound (getTemplateFileName self w tpl false) ->
  resolve_with_fallback self w tpl []
  = (getTemplateFileName self w "list" false, [tpl; "list"]).
Proof. intros [msg H]. unfold resolve_with_fallback, traced. rewrite H. reflexivity. Qed.

Lemma resolve_with_fallback_NotFound self w tpl :
  raises_NotFound (resolve_with_fallback self w tpl []).1 <->
  raises_NotFound (getTemplateFileName self w tpl false) /\
  raises_NotFound (getTemplateFileName self w "list" false).
Proof.
  destruct (getTemplateFileName self w tpl false) as [fn|e] eqn:E.
  - rewrite (resolve_with_fallback_found _ _ _ _ E). simpl.
    split; [intros [? ?]; discriminate | intros [[? ?] _]; discriminate].
  - pose proof (getTemplateFileName_raises _ _ _ _ _ E) as ->.
    rewrite resolve_with_fallback_retry by (eexists; exact E). simpl.
    split; [intros H; split; [eexists; reflexivity | exact H] | tauto].
Qed.

Lemma mapM_set_renderPreparation_raises (l : list pyval) e :
  mapM Py.set_renderPreparation l = Raise e -> e = AttributeError.
Proof.
  induction l as [|x l IH]; simpl; [discriminate|].
  destruct x; simpl; try congruence.
  destruct (mapM Py.set_renderPreparation l); simpl; [discriminate|].
  intros [= <-]. by apply IH.
Qed.

(** C8: in [list] and in [listRootNodes], when the requested template name
    does not resolve, the Not-Found error is caught and
    [getTemplateFileName] is asked once more, for the name "list"; the view
    fails with Not-Found exactly when both the requested name and "list" fail
    to resolve.  [getTemplateFileName] is called twice in all: for the
    requested name and then for "list" after a miss (for the requested name
    again after a hit). *)
Theorem C8_list_views_retry_with_list (self : Render) (w : world)
    (skellist : list pyval) (tpl : option string) :
  (raises_NotFound (getTemplateFileName self w (list_tpl self tpl) false) ->
     list_ self w skellist tpl
     = (fn ← getTemplateFileName self w "list" false;
        skellist ← mapM Py.set_renderPreparation skellist;
        Ret (fn, skellist),
        [list_tpl self tpl; "list"]))
  /\ (forall fn, getTemplateFileName self w (list_tpl self tpl) false = Ret fn ->
        (list_ self w skellist tpl).2 = [list_tpl self tpl; list_tpl self tpl])
  /\ (raises_NotFound (list_ self w skellist tpl).1 <->
        raises_NotFound (getTemplateFileName self w (list_tpl self tpl) false) /\
        raises_NotFound (getTemplateFileName self w "list" false))
  /\ forall name, listRootNodes_tpl self tpl = Ret name ->
       (raises_NotFound (getTemplateFileName self w name false) ->
          listRootNodes self w tpl
          = (getTemplateFileName self w "list" false, [name; "list"]))
       /\ (forall fn, getTemplateFileName self w name false = Ret fn ->
             listRootNodes self w tpl = (Ret fn, [name; name]))
       /\ (raises_NotFound (listRootNodes self w tpl).1 <->
             raises_NotFound (getTemplateFileName self w name false) /\
             raises_NotFound (getTemplateFileName self w "list" false)).
Proof.
  split; [|split; [|split]].
  - intros H. unfold list_. rewrite (resolve_with_fallback_retry _ _ _ H). reflexivity.
  - intros fn H. unfold list_. rewrite (resolve_with_fallback_found _ _ _ _ H). reflexivity.
  - rewrite <- resolve_with_fallback_NotFound. unfold list_.
    destruct (resolve_with_fallback self w (list_tpl self tpl) []) as [r log]. simpl.
    destruct r as [fn|e];
      [|split; intros [msg H]; exists msg; cbn in *; congruence].
    split; [|intros [? ?]; discriminate].
    intros [msg H]. cbn in H.
    destruct (mapM Py.set_renderPreparation skellist) eqn:E; [discriminate|].
    apply mapM_set_renderPreparation_raises in E. cbn in H. congruence.
  - intros name Hname. unfold listRootNodes. rewrite Hname.
    split; [apply resolve_with_fallback_retry|].
    split; [apply resolve_with_fallback_found|].
    apply resolve_with_fallback_NotFound.
Qed.

(** A missing "user_list" template falls back to "list". *)
Example list_falls_back :
  list_ defaultRender
    (mkWorld None None "/app" (fun p => String.eqb p "/app/html/list.html"))
    [VEntity 1 None []] (Some "user_list")
  = (Ret ("list.html", [VEntity 1 (Some RenderBoneValue) []]), ["user_list"; "list"]).
Proof. vm_compute. reflexivity. Qed.

(** ** Skeletons *)

Lemma renderBoneStructure_eq ext b :
  renderBoneStructure ext b = renderBoneStructure_body ext (renderSkelStructure ext) b.
Proof. destruct b; reflexivity. Qed.

Lemma wf_bone_eq b : wf_bone b = wf_bone_body wf_skel b.
Proof. destruct b; reflexivity. Qed.

(** *** Insertion-ordered dictionaries with string keys *)

Lemma key_eqb_VStr k x : Py.key_eqb k (VStr x) = true <-> k = VStr x.
Proof.
  destruct k; simpl; try (split; [discriminate | congruence]).
  rewrite String.eqb_eq. split; congruence.
Qed.

Lemma dict_get_set_str {V} (a b : string) (v : V) (l : list (pyval * V)) :
  Py.dict_get (VStr a) (Py.dict_set (VStr b) v l)
  = if String.eqb b a then Some v else Py.dict_get (VStr a) l.
Proof.
  induction l as [|[k' v'] l IH]; simpl.
  - destruct (String.eqb_spec b a); reflexivity.
  - destruct (Py.key_eqb k' (VStr b)) eqn:Eb; simpl.
    + apply key_eqb_VStr in Eb as ->. simpl.
      destruct (String.eqb_spec b a); reflexivity.
    + destruct (Py.key_eqb k' (VStr a)) eqn:Ea; [|exact IH].
      apply key_eqb_VStr in Ea as ->. simpl in Eb.
      rewrite String.eqb_sym in Eb. by rewrite Eb.
Qed.


(** *** The loop of [renderSkelStructure] *)

Section RenderItems.

Variables (rb : bone -> outcome pdict) (errs : gmap string string).

Let err := error_entry errs.

Lemma renderItems_total its : forall res,
  Forall (fun kv : string * slot =>
            match kv.2 with
            | IsBone b => PyStr.contains "__" kv.1 = false -> exists d, rb b = Ret d
            | NotBone _ => True
            end) its ->
  exists r, renderItems rb errs its res = Ret r.
Proof.
  induction its as [|[key sl] its IH]; intros res Hall; simpl; [eauto|].
  inversion Hall as [|? ? Hhd Htl]; subst. simpl in Hhd.
  destruct sl as [b|v]; [|by apply IH].
  destruct (PyStr.contains "__" key); [by apply IH|].
  destruct (Hhd eq_refl) as [d ->]. simpl. by apply IH.
Qed.


Lemma renderItems_error its : forall res r,
  renderItems rb errs its res = Ret r ->
  (forall key d, Py.dict_get (VStr key) res = Some d ->
                 Py.dict_get (VStr "error") d = Some (err key)) ->
  forall key d, Py.dict_get (VStr key) r = Some d ->
                Py.dict_get (VStr "error") d = Some (err key).
Proof.
  induction its as [|[k sl] its IH]; intros res r Hr Hres; simpl in Hr.
  - by injection Hr as <-.
  - destruct sl as [b|v]; [|by eapply IH].
    destruct (PyStr.contains "__" k); [by eapply IH|].
    apply bind_Ret in Hr as (d0 & Hd0 & Hr).
    eapply IH; [exact Hr|].
    intros key d. rewrite dict_get_set_str.
    destruct (String.eqb_spec k key) as [->|_]; [|by apply Hres].
    intros [= <-]. rewrite dict_get_set_str. reflexivity.
Qed.

End RenderItems.

(** Well-formed bones and skeletons render. *)
Lemma render_structure_total ext :
  (forall b, wf_bone b = true -> exists d, renderBoneStructure ext b = Ret d) /\
  (forall s, wf_skel s = true -> exists r, renderSkelStructure ext s = Ret r).
Proof.
  set (P := fun b => wf_bone b = true -> exists d, renderBoneStructure ext b = Ret d).
  set (Q := fun s => wf_skel s = true -> exists r, renderSkelStructure ext s = Ret r).
  assert (HP : forall b, Forall Q (attrs_skeletons (extra b)) -> P b).
  { intros b Hsk. unfold P. rewrite wf_bone_eq, renderBoneStructure_eq.
    unfold wf_bone_body, renderBoneStructure_body.
    destruct (has_type b "relational").
    { destruct (extra b) as [m f u r| | | | | | |]; try discriminate.
      intros [Hu Hr]%andb_true_iff. simpl in Hsk.
      destruct u as [u|]; simpl in Hsk.
      - inversion Hsk as [|? ? Qu Hsk']; subst. inversion Hsk' as [|? ? Qr _]; subst.
        destruct (Qu Hu) as [ru ->]. destruct (Qr Hr) as [rr ->]. simpl. eauto.
      - inversion Hsk as [|? ? Qr _]; subst.
        destruct (Qr Hr) as [rr ->]. simpl. eauto. }
    destruct (has_type b "record").
    { destruct (extra b) as [m f [u|] r|f [u|]| | | | | |]; try discriminate;
        intros Hu; simpl in Hsk; inversion Hsk as [|? ? Qu _]; subst;
        destruct (Qu Hu) as [ru ->]; simpl; eauto. }
    destruct (has_type b "select"); [destruct (extra b); try discriminate; eauto|].
    destruct (has_type b "date"); [destruct (extra b); try discriminate; eauto|].
    destruct (has_type b "numeric"); [destruct (extra b); try discriminate; eauto|].
    destruct (has_type b "text"); [destruct (extra b); try discriminate; eauto|].
    destruct (has_type b "str"); [eauto|].
    destruct (has_type b "captcha"); [destruct (extra b); try discriminate; eauto|].
    eauto. }
  assert (HQ : forall s,
    Forall (fun kv : string * slot =>
              match kv.2 with IsBone b => P b | NotBone _ => True end) (items s) -> Q s).
  { intros s Hall Hwf. unfold renderSkelStructure. apply renderItems_total.
    unfold wf_skel in Hwf. rewrite forallb_forall in Hwf.
    rewrite List.Forall_forall in *. intros [k sl] Hin.
    specialize (Hall _ Hin). specialize (Hwf _ Hin). simpl in *.
    destruct sl as [b|v]; [|exact I].
    intros Hk. rewrite Hk in Hwf. by apply Hall. }
  split; [exact (bone_skel_ind P Q HP HQ) | exact (skel_bone_ind P Q HP HQ)].
Qed.



Example sample_skel_keys :
  Py.dict_keys <$> (match renderSkelStructure sample_externals sample_skel with
                    | Ret res => Some res | Raise _ => None end)
  = Some [VStr "a"; VStr "b"].
Proof. vm_compute. reflexivity. Qed.

(** C6: in the rendered structure of a well-formed skeleton, the [error]
    entry of every field is the message recorded for that name in
    [skel.errors], and [None] when the name is not recorded; so it is not
    [None] exactly when the name is in [skel.errors]. *)
Theorem C6_error_entry (ext : externals) (skel : skeleton) :
  wf_skel skel = true ->
  exists res, renderSkelStructure ext skel = Ret res /\
    forall key d, Py.dict_get (VStr key) res = Some d ->
      Py.dict_get (VStr "error") d = Some (error_entry (errors skel) key) /\
      (error_entry (errors skel) key <> VNone <-> is_Some (errors skel !! key)) /\
      (forall msg, errors skel !! key = Some msg ->
                   Py.dict_get (VStr "error") d = Some (VStr msg)).
Proof.
  intros Hwf.
  destruct (proj2 (render_structure_total ext) skel Hwf) as [res Hres].
  exists res. split; [assumption|]. intros key d Hd.
  unfold renderSkelStructure in Hres.
  pose proof (renderItems_error _ _ _ _ _ Hres) as Herr.
  assert (Py.dict_get (VStr "error") d = Some (error_entry (errors skel) key)) as E.
  { eapply Herr; [|exact Hd]. intros ? ? ?. discriminate. }
  split; [exact E|]. split.
  - unfold error_entry. destruct (errors skel !! key).
    + split; [eauto | discriminate].
    + split; [congruence | intros [? ?]; discriminate].
  - intros msg Hmsg. rewrite E. unfold error_entry. by rewrite Hmsg.
Qed.

Lemma C6_error_entry_witness :
  exists res, renderSkelStructure sample_externals sample_skel = Ret res /\
    forall key d, Py.dict_get (VStr key) res = Some d ->
      Py.dict_get (VStr "error") d = Some (error_entry (errors sample_skel) key) /\
      (error_entry (errors sample_skel) key <> VNone
       <-> is_Some (errors sample_skel !! key)) /\
      (forall msg, errors sample_skel !! key = Some msg ->
                   Py.dict_get (VStr "error") d = Some (VStr msg)).
Proof. apply C6_error_entry. vm_compute. reflexivity. Defined.

(** ** Rendered values *)

Lemma dict_set_Forall {V} (P : V -> Prop) (k : pyval) (v : V) (l : list (pyval * V)) :
  P v -> Forall (fun kv => P kv.2) l -> Forall (fun kv => P kv.2) (Py.dict_set k v l).
Proof.
  intros Hv. induction 1 as [|[k' v'] l Hhd Htl IH]; simpl.
  - by repeat constructor.
  - destruct (Py.key_eqb k' k); constructor; auto.
Qed.

Lemma dispatch_password ext b v :
  type b = "password" -> renderBoneValue_dispatch ext b v = Ret (RValue (VStr "")).
Proof.
  intros H. unfold renderBoneValue_dispatch, has_type. rewrite H. reflexivity.
Qed.

Lemma render_languages_password ext b value langs :
  type b = "password" ->
  forall res, exists kvs,
    render_languages ext b value langs res = Ret kvs /\
    (Forall (fun kv => kv.2 = RValue (VStr "")) res ->
     Forall (fun kv => kv.2 = RValue (VStr "")) kvs) /\
    forall l, is_Some (Py.dict_get (VStr l) kvs) <->
              is_Some (Py.dict_get (VStr l) res) \/
              (l ∈ langs /\ is_Some (Py.dict_get (VStr l) value)).
Proof.
  intros Hpw. induction langs as [|language langs IH]; intros res; simpl.
  - exists res. split; [reflexivity|]. split; [auto|].
    intros l. rewrite elem_of_nil. tauto.
  - destruct (Py.dict_get (VStr language) value) as [v|] eqn:Hv.
    + rewrite dispatch_password by assumption. simpl.
      destruct (IH (Py.dict_set (VStr language) (RValue (VStr "")) res))
        as (kvs & -> & Hall & Hkeys).
      exists kvs. split; [reflexivity|]. split.
      * intros Hres. apply Hall.
        by apply (dict_set_Forall (fun r => r = RValue (VStr ""))).
      * intros l. rewrite Hkeys, dict_get_set_str, elem_of_cons.
        destruct (String.eqb_spec language l) as [->|Hne].
        -- rewrite Hv. split; [intros _; right; eauto | intros _; left; eauto].
        -- split; [intros [?|[? ?]]; auto | intros [?|[[?|?] ?]]; auto; congruence].
    + destruct (IH res) as (kvs & -> & Hall & Hkeys).
      exists kvs. split; [reflexivity|]. split; [assumption|].
      intros l. rewrite Hkeys, elem_of_cons.
      split; [intros [?|[? ?]]; auto|].
      intros [?|[[->|?] Hl]]; auto.
      rewrite Hv in Hl. by destruct Hl.
Qed.

(** C7 (as claimed, refuted): a password bone that declares languages renders
    a dictionary value as a [LanguageWrapper], not as the empty string, and
    two stored values with different languages render differently. *)
Lemma C7_language_wrapper_counterexample :
  ~ (forall v1 v2,
       renderBoneValue sample_externals password_bone_i18n sample_skel (VStr "password")
         v1 false
       = renderBoneValue sample_externals password_bone_i18n sample_skel (VStr "password")
           v2 false
       /\ renderBoneValue sample_externals password_bone_i18n sample_skel (VStr "password")
            v1 false
          = Ret (RValue (VStr ""))).
Proof.
  intros H.
  destruct (H (VDict [(VStr "en", VStr "correct horse battery staple")]) (VDict []))
    as [E _].
  vm_compute in E. discriminate E.
Qed.

(** C7 (amended): for a password bone, [renderBoneValue] returns the empty
    string whenever the bone declares no languages or the value is already
    language-unwrapped; otherwise it returns a [LanguageWrapper] all of whose
    entries are the empty string, with an entry exactly for the declared
    languages that are keys of the dictionary value.  No part of the stored
    value reaches the result. *)
Theorem C7_password_renders_empty (ext : externals) (b : bone) (skel : skeleton)
    (key boneValue : pyval) (isLanguageWrapped : bool) :
  type b = "password" ->
  (languages_truthy b && negb isLanguageWrapped = false ->
     renderBoneValue ext b skel key boneValue isLanguageWrapped = Ret (RValue (VStr "")))
  /\ (languages_truthy b && negb isLanguageWrapped = true ->
        exists kvs,
          renderBoneValue ext b skel key boneValue isLanguageWrapped
          = Ret (RLanguage (default [] (languages b)) kvs) /\
          Forall (fun kv => kv.2 = RValue (VStr "")) kvs /\
          forall l, is_Some (Py.dict_get (VStr l) kvs) <->
                    l ∈ default [] (languages b) /\
                    exists value, boneValue = VDict value /\
                                  is_Some (Py.dict_get (VStr l) value)).
Proof.
  intros Hpw. unfold renderBoneValue. split; intros ->.
  - by apply dispatch_password.
  - destruct boneValue as [| | | | |value| |];
      try (exists []; split; [reflexivity|]; split; [constructor|];
           intros l; split; [intros [? ?]; discriminate
                            | intros [_ (value & ? & _)]; discriminate]).
    destruct (render_languages_password ext b value (default [] (languages b)) Hpw [])
      as (kvs & -> & Hall & Hkeys).
    exists kvs. split; [reflexivity|]. split; [apply Hall; constructor|].
    intros l. rewrite Hkeys. simpl. split.
    + intros [[? ?]|[? ?]]; [discriminate|]. eauto.
    + intros [? (value' & [= <-] & ?)]. auto.
Qed.

Lemma C7_password_renders_empty_witness :
  renderBoneValue sample_externals password_bone sample_skel (VStr "password")
    (VStr "correct horse battery staple, a long stored secret") false
  = Ret (RValue (VStr "")).
Proof.
  apply (C7_password_renders_empty sample_externals password_bone sample_skel
           (VStr "password") (VStr "correct horse battery staple, a long stored secret")
           false eq_refl).
  reflexivity.
Defined.

Lemma render_relation_not_None b k r : render_relation b k = Ret r -> r <> VNone.
Proof.
  unfold render_relation. intros H.
  repeat (apply bind_Ret in H as (? & _ & H)).
  injection H as <-. discriminate.
Qed.

Lemma set_renderPreparation_not_None v r :
  Py.set_renderPreparation v = Ret r -> r <> VNone.
Proof. destruct v; simpl; intros [= <-]; discriminate. Qed.

Lemma dispatch_None ext b v :
  renderBoneValue_dispatch ext b v = Ret (RValue VNone) <->
  (if has_type b "select" then false
   else if has_type b "relational" then negb (Py.is_list v) && negb (Py.is_dict v)
   else if has_type b "record" then negb (Py.truthy v)
   else if String.eqb (type b) "password" then false
   else if String.eqb (type b) "key" then negb (Py.truthy v)
   else match v with VNone => true | _ => false end) = true.
Proof.
  unfold renderBoneValue_dispatch.
  destruct (has_type b "select").
  { split; [|discriminate]. intros H.
    destruct v; apply bind_Ret in H as (? & _ & H); try discriminate H;
      apply bind_Ret in H as (known & _ & H);
      destruct known; try discriminate H;
      destruct (Py.dict_get _ _); discriminate H. }
  destruct (has_type b "relational").
  { destruct v; simpl; split; intros H; try reflexivity; try discriminate H;
      apply bind_Ret in H as (r & Hr & H); try discriminate H.
    injection H as ->. by apply render_relation_not_None in Hr. }
  destruct (has_type b "record").
  { destruct (Py.truthy v); simpl; [|split; reflexivity].
    split; [|discriminate]. intros H.
    destruct (multiple b); apply bind_Ret in H as (r & Hr & H).
    - apply bind_Ret in H as (? & _ & H). discriminate.
    - injection H as ->. by apply set_renderPreparation_not_None in Hr. }
  destruct (String.eqb (type b) "password"); [split; discriminate|].
  destruct (String.eqb (type b) "key").
  { destruct (Py.truthy v); simpl; [|split; reflexivity].
    split; [|discriminate]. intros H.
    apply bind_Ret in H as (? & _ & H). discriminate. }
  destruct v; split; try reflexivity; discriminate.
Qed.

(** C4 (as claimed, refuted): a bone of type "str", which is neither a record
    nor a key, renders the value [None] as [None]; so does a relational bone
    whose value is [None]. *)
Lemma C4_None_passthrough_counterexample :
  ~ (forall b v,
       renderBoneValue sample_externals b sample_skel (VStr "name") v false
       = Ret (RValue VNone) ->
       (has_type b "record" = true /\ Py.truthy v = false) \/ type b = "key").
Proof.
  intros H. destruct (H str_bone VNone eq_refl) as [[E _]|E]; vm_compute in E; discriminate E.
Qed.

(** C4 (amended): [renderBoneValue] returns [None] exactly when the language
    branch is not taken and either the bone is relational and its value is
    neither a list nor a dictionary, or it is a record and its value is
    false, or it is a key and its value is false, or it has no branch of its
    own (it is none of select, relational, record, password, key) and its
    value is [None] itself.  Select and password bones never render as
    [None]. *)
Theorem C4_rendered_None_cases (ext : externals) (b : bone) (skel : skeleton)
    (key boneValue : pyval) (isLanguageWrapped : bool) :
  renderBoneValue ext b skel key boneValue isLanguageWrapped = Ret (RValue VNone)
  <-> renders_None b boneValue isLanguageWrapped = true.
Proof.
  unfold renderBoneValue, renders_None.
  destruct (languages_truthy b && negb isLanguageWrapped); simpl.
  - split; [|discriminate]. intros H. destruct boneValue; try discriminate H.
    apply bind_Ret in H as (? & _ & H). discriminate.
  - apply dispatch_None.
Qed.

Example relational_None_renders_None :
  renderBoneValue sample_externals
    (mkBone "Owner" "relational.user" false false VNone true false None
       (RelationalAttrs "user" (VStr "$(dest.name)") None (mkSkeleton [] ∅)))
    sample_skel (VStr "owner") VNone false
  = Ret (RValue VNone).
Proof. vm_compute. reflexivity. Qed.

(** * Further properties *)

(** ** colorBone.fromClient *)

Lemma fromClient_supplied self name data v :
  valid_mode self ->
  data !! name = Some (VStr v) ->
  fromClient self name data = fromClient_checked self (PyStr.lower v).
Proof.
  intros Hm Hd. unfold fromClient, fromClient_checked. rewrite Hd.
  destruct Hm as [-> | ->]; reflexivity.
Qed.

Lemma fromClient_rgb_returns self v : exists r, fromClient_rgb self v = Ret r.
Proof.
  unfold fromClient_rgb.
  destruct (String.length v =? 3)%nat eqn:H3.
  - apply Nat.eqb_eq in H3.
    destruct v as [|a [|b [|c [|? ?]]]]; try discriminate H3. simpl. eauto.
  - destruct (String.length v =? 4)%nat eqn:H4.
    + apply Nat.eqb_eq in H4.
      destruct v as [|a [|b [|c [|d [|? ?]]]]]; try discriminate H4. simpl. eauto.
    + simpl. destruct (_ || _); eauto.
Qed.

Lemma fromClient_rgb_error self v msg self' :
  fromClient_rgb self v = Ret (Some msg, self') -> self' = self.
Proof.
  unfold fromClient_rgb. intros H. apply bind_Ret in H as (x & _ & H).
  destruct (_ || _); congruence.
Qed.

Lemma fromClient_rgba_error self v msg self' :
  fromClient_rgba self v = Ret (Some msg, self') -> self' = self.
Proof. unfold fromClient_rgba. destruct (_ || _); congruence. Qed.

(** X1: whenever [fromClient] answers with an error message, the bone is
    left as it was. *)
Theorem fromClient_error_keeps_bone (self : colorBone) (name : string)
    (data : gmap string pyval) (msg : string) (self' : colorBone) :
  fromClient self name data = Ret (Some msg, self') -> self' = self.
Proof.
  unfold fromClient.
  destruct (negb _ && negb _); [congruence|].
  destruct (match data !! name with Some v => v | None => VNone end);
    try discriminate.
  simpl. destruct (1 <? _)%nat; [congruence|].
  destruct (negb (PyStr.all_in _ _)); [congruence|].
  destruct (mode self =? "rgb")%string; [apply fromClient_rgb_error|].
  destruct (mode self =? "rgba")%string; [apply fromClient_rgba_error|].
  discriminate.
Qed.

Lemma fromClient_error_keeps_bone_witness :
  mkColorBone "rgb" (VStr "#112233") = mkColorBone "rgb" (VStr "#112233").
Proof.
  symmetry.
  apply (fromClient_error_keeps_bone (mkColorBone "rgb" (VStr "#112233")) "color"
           {[ "color" := VStr "12345" ]} "Invalid value entered").
  vm_compute. reflexivity.
Defined.

(** X2: [fromClient] raises only [AttributeError], and only when the supplied
    value is neither [None] nor a string; the indexing of the rgb branch never
    runs out of range. *)
Theorem fromClient_raises_only_AttributeError (self : colorBone) (name : string)
    (data : gmap string pyval) (e : exn) :
  fromClient self name data = Raise e ->
  e = AttributeError /\
  exists v, data !! name = Some v /\ v <> VNone /\ forall s, v <> VStr s.
Proof.
  unfold fromClient.
  destruct (negb _ && negb _); [discriminate|].
  destruct (data !! name) as [v|]; [|discriminate].
  destruct v; try discriminate;
    try (simpl; intros [= <-]; split; [reflexivity|];
         eexists; split; [reflexivity|]; split; intros; discriminate).
  simpl. destruct (1 <? _)%nat; [discriminate|].
  destruct (negb (PyStr.all_in _ _)); [discriminate|].
  destruct (mode self =? "rgb")%string.
  { destruct (fromClient_rgb_returns self (PyStr.lower s)) as [r ->]. discriminate. }
  destruct (mode self =? "rgba")%string; [|discriminate].
  unfold fromClient_rgba. destruct (_ || _); discriminate.
Qed.

Lemma fromClient_raises_only_AttributeError_witness :
  AttributeError = AttributeError /\
  exists v, ({[ "color" := VList [VStr "abc"] ]} : gmap string pyval) !! "color" = Some v /\
            v <> VNone /\ forall s, v <> VStr s.
Proof.
  apply (fromClient_raises_only_AttributeError (mkColorBone "rgb" VNone) "color").
  vm_compute. reflexivity.
Defined.

Lemma lower_ascii_idem c : PyStr.lower_ascii (PyStr.lower_ascii c) = PyStr.lower_ascii c.
Proof. destruct c as [[] [] [] [] [] [] [] []]; reflexivity. Qed.

Lemma lower_idem s : PyStr.lower (PyStr.lower s) = PyStr.lower s.
Proof. induction s as [|c s IH]; simpl; [reflexivity|]. by rewrite lower_ascii_idem, IH. Qed.

(** X3: validation does not depend on the case of the input: a string and its
    lowered form give the same answer and the same stored value. *)
Theorem fromClient_case_insensitive (self : colorBone) (name : string)
    (data : gmap string pyval) (v : string) :
  fromClient self name (<[name := VStr v]> data)
  = fromClient self name (<[name := VStr (PyStr.lower v)]> data).
Proof.
  unfold fromClient. rewrite !lookup_insert_eq. simpl. by rewrite lower_idem.
Qed.

Lemma mem_hexdigits c :
  PyStr.mem c hexdigits = true -> PyStr.mem c hexchars = true /\ Ascii.eqb c "#" = false.
Proof.
  unfold hexdigits. cbn [PyStr.mem]. intros H.
  repeat (apply orb_true_iff in H as [H|H];
          [apply Ascii.eqb_eq in H; subst c; split; reflexivity|]).
  discriminate.
Qed.

Lemma all_in_hexdigits s :
  PyStr.all_in hexdigits s = true ->
  PyStr.all_in hexchars s = true /\ PyStr.count "#" s = 0.
Proof.
  induction s as [|c s IH]; [split; reflexivity|]. cbn [PyStr.all_in PyStr.count].
  intros [Hc Hs]%andb_true_iff. destruct (IH Hs) as [-> ->].
  destruct (mem_hexdigits c Hc) as [-> ->]. split; reflexivity.
Qed.

Lemma fromClient_rgb_six self v :
  String.length v = 6 -> fromClient_rgb self v = Ret (None, set_value self ("#" +:+ v)).
Proof. intros H. unfold fromClient_rgb. repeat (rewrite !H; simpl). reflexivity. Qed.

Lemma fromClient_rgb_seven self v :
  String.length v = 7 -> fromClient_rgb self v = Ret (None, set_value self v).
Proof. intros H. unfold fromClient_rgb. repeat (rewrite !H; simpl). reflexivity. Qed.

Lemma fromClient_rgba_eight self v :
  String.length v = 8 -> fromClient_rgba self v = Ret (None, set_value self ("#" +:+ v)).
Proof. intros H. unfold fromClient_rgba. repeat (rewrite !H; simpl). reflexivity. Qed.

Lemma fromClient_rgba_nine self v :
  String.length v = 9 -> fromClient_rgba self v = Ret (None, set_value self v).
Proof. intros H. unfold fromClient_rgba. repeat (rewrite !H; simpl). reflexivity. Qed.

Lemma fromClient_checked_hexdigits self d :
  PyStr.all_in hexdigits d = true ->
  fromClient_checked self d
  = (if String.eqb (mode self) "rgb" then fromClient_rgb self d else fromClient_rgba self d)
  /\ fromClient_checked self ("#" +:+ d)
     = (if String.eqb (mode self) "rgb" then fromClient_rgb self ("#" +:+ d)
        else fromClient_rgba self ("#" +:+ d)).
Proof.
  intros [Ha Hc]%all_in_hexdigits. unfold fromClient_checked.
  cbn [String.append PyStr.count PyStr.all_in]. rewrite Ha, Hc. split; reflexivity.
Qed.

(** X4: six hex digits in rgb mode, and eight in rgba mode, are stored
    lowered behind a ['#'], whether or not the input already starts with
    ['#'] and whatever its case. *)
Theorem fromClient_full_form (self : colorBone) (name : string)
    (data : gmap string pyval) (d : string) :
  (mode self = "rgb" /\ String.length d = 6) \/
  (mode self = "rgba" /\ String.length d = 8) ->
  PyStr.all_in hexdigits (PyStr.lower d) = true ->
  fromClient self name (<[name := VStr d]> data)
  = Ret (None, set_value self ("#" +:+ PyStr.lower d))
  /\ fromClient self name (<[name := VStr ("#" +:+ d)]> data)
     = Ret (None, set_value self ("#" +:+ PyStr.lower d)).
Proof.
  intros Hm Hd.
  assert (valid_mode self) as Hv by (unfold valid_mode; tauto).
  rewrite !(fromClient_supplied _ _ _ _ Hv (lookup_insert_eq _ _ _)).
  change (PyStr.lower ("#" +:+ d)) with ("#" +:+ PyStr.lower d).
  destruct (fromClient_checked_hexdigits self _ Hd) as [-> ->].
  pose proof (lower_length d) as Hl.
  destruct Hm as [[Hmode Hlen]|[Hmode Hlen]]; rewrite Hmode; simpl.
  - rewrite fromClient_rgb_six, fromClient_rgb_seven by (simpl; congruence).
    split; reflexivity.
  - rewrite fromClient_rgba_eight, fromClient_rgba_nine by (simpl; congruence).
    split; reflexivity.
Qed.

Lemma fromClient_full_form_witness :
  fromClient (mkColorBone "rgba" VNone) "c" (<["c" := VStr "1A2B3C4D"]> ∅)
  = Ret (None, set_value (mkColorBone "rgba" VNone) ("#" +:+ PyStr.lower "1A2B3C4D"))
  /\ fromClient (mkColorBone "rgba" VNone) "c" (<["c" := VStr ("#" +:+ "1A2B3C4D")]> ∅)
     = Ret (None, set_value (mkColorBone "rgba" VNone) ("#" +:+ PyStr.lower "1A2B3C4D")).
Proof.
  apply fromClient_full_form.
  - right. split; reflexivity.
  - vm_compute. reflexivity.
Defined.

(** X5: in rgb mode the three-digit shorthand is stored with every digit
    doubled, behind a ['#'], with or without a leading ['#'] in the input. *)
Theorem fromClient_shorthand_doubled (self : colorBone) (name : string)
    (data : gmap string pyval) (a b c : ascii) :
  let d := String a (String b (String c "")) in
  let a' := PyStr.lower_ascii a in
  let b' := PyStr.lower_ascii b in
  let c' := PyStr.lower_ascii c in
  let stored := String "#" (String a' (String a' (String b' (String b'
                  (String c' (String c' "")))))) in
  mode self = "rgb" ->
  PyStr.all_in hexdigits (PyStr.lower d) = true ->
  fromClient self name (<[name := VStr d]> data) = Ret (None, set_value self stored)
  /\ fromClient self name (<[name := VStr ("#" +:+ d)]> data)
     = Ret (None, set_value self stored).
Proof.
  intros d a' b' c' stored Hmode Hd.
  assert (valid_mode self) as Hv by (left; exact Hmode).
  rewrite !(fromClient_supplied _ _ _ _ Hv (lookup_insert_eq _ _ _)).
  change (PyStr.lower ("#" +:+ d)) with ("#" +:+ PyStr.lower d).
  destruct (fromClient_checked_hexdigits self _ Hd) as [-> ->].
  rewrite Hmode. split; reflexivity.
Qed.

Lemma fromClient_shorthand_doubled_witness :
  fromClient (mkColorBone "rgb" VNone) "c" (<["c" := VStr "ABC"]> ∅)
  = Ret (None, set_value (mkColorBone "rgb" VNone) "#aabbcc")
  /\ fromClient (mkColorBone "rgb" VNone) "c" (<["c" := VStr ("#" +:+ "ABC")]> ∅)
     = Ret (None, set_value (mkColorBone "rgb" VNone) "#aabbcc").
Proof.
  apply (fromClient_shorthand_doubled (mkColorBone "rgb" VNone) "c" ∅ "A" "B" "C").
  - reflexivity.
  - vm_compute. reflexivity.
Defined.

(** X6: a supplied string with more than one ['#'], or with a character that
    is not in ["#0123456789abcdef"] once lowered, is refused with
    "Invalid value entered" in both modes. *)
Theorem fromClient_rejects_malformed (self : colorBone) (name : string)
    (data : gmap string pyval) (v : string) :
  valid_mode self ->
  data !! name = Some (VStr v) ->
  1 < PyStr.count "#" (PyStr.lower v) \/ PyStr.all_in hexchars (PyStr.lower v) = false ->
  fromClient self name data = Ret (Some "Invalid value entered", self).
Proof.
  intros Hm Hd Hbad. rewrite (fromClient_supplied _ _ _ _ Hm Hd).
  unfold fromClient_checked.
  destruct (1 <? _)%nat eqn:Hc; [reflexivity|].
  destruct Hbad as [Hbad | ->]; [|reflexivity].
  apply Nat.ltb_ge in Hc. lia.
Qed.

Lemma fromClient_rejects_malformed_witness :
  fromClient (mkColorBone "rgb" VNone) "c" {[ "c" := VStr "#12#456" ]}
  = Ret (Some "Invalid value entered", mkColorBone "rgb" VNone).
Proof.
  apply (fromClient_rejects_malformed _ _ _ "#12#456").
  - left. reflexivity.
  - vm_compute. reflexivity.
  - left. vm_compute. lia.
Defined.

Lemma fromClient_rgb_alphabet self x self' :
  PyStr.all_in hexchars x = true ->
  fromClient_rgb self x = Ret (None, self') ->
  exists s, self' = set_value self s /\ PyStr.all_in hexchars s = true
            /\ String.length s = 7.
Proof.
  intros Hx H. unfold fromClient_rgb in H.
  destruct (String.length x =? 3)%nat eqn:H3.
  { apply Nat.eqb_eq in H3.
    destruct x as [|a [|b [|c [|? ?]]]]; try discriminate H3.
    simpl in H. injection H as <-. eexists. split; [reflexivity|]. split; [|reflexivity].
    cbn [PyStr.all_in] in *.
    apply andb_true_iff in Hx as [Ha Hx]. apply andb_true_iff in Hx as [Hb Hx].
    apply andb_true_iff in Hx as [Hc _]. rewrite Ha, Hb, Hc. reflexivity. }
  destruct (String.length x =? 4)%nat eqn:H4.
  { apply Nat.eqb_eq in H4.
    destruct x as [|a [|b [|c [|d [|? ?]]]]]; try discriminate H4.
    simpl in H. injection H as <-. eexists. split; [reflexivity|]. split; [|reflexivity].
    cbn [PyStr.all_in] in *.
    apply andb_true_iff in Hx as [Ha Hx]. apply andb_true_iff in Hx as [Hb Hx].
    apply andb_true_iff in Hx as [Hc Hx]. apply andb_true_iff in Hx as [Hd _].
    rewrite Ha, Hb, Hc, Hd. reflexivity. }
  simpl in H.
  destruct (String.length x =? 6)%nat eqn:H6; simpl in H.
  { injection H as <-. apply Nat.eqb_eq in H6.
    eexists. split; [reflexivity|]. split; [|simpl; congruence].
    cbn [String.append PyStr.all_in]. rewrite Hx. reflexivity. }
  destruct (String.length x =? 7)%nat eqn:H7; [|discriminate].
  injection H as <-. apply Nat.eqb_eq in H7. eauto.
Qed.

Lemma fromClient_rgba_alphabet self x self' :
  PyStr.all_in hexchars x = true ->
  fromClient_rgba self x = Ret (None, self') ->
  exists s, self' = set_value self s /\ PyStr.all_in hexchars s = true
            /\ String.length s = 9.
Proof.
  intros Hx H. unfold fromClient_rgba in H.
  destruct (String.length x =? 8)%nat eqn:H8; simpl in H.
  { injection H as <-. apply Nat.eqb_eq in H8.
    eexists. split; [reflexivity|]. split; [|simpl; congruence].
    cbn [String.append PyStr.all_in]. rewrite Hx. reflexivity. }
  destruct (String.length x =? 9)%nat eqn:H9; [|discriminate].
  injection H as <-. apply Nat.eqb_eq in H9. eauto.
Qed.

(** X7: after a successful validation of a supplied string the value slot
    holds a string over the alphabet ["#0123456789abcdef"], already lowered,
    of exactly seven characters in rgb mode and nine in rgba mode. *)
Theorem fromClient_stored_alphabet (self : colorBone) (name : string)
    (data : gmap string pyval) (v : string) (self' : colorBone) :
  data !! name = Some (VStr v) ->
  fromClient self name data = Ret (None, self') ->
  exists s, self' = set_value self s /\
    PyStr.all_in hexchars s = true /\ PyStr.lower s = s /\
    ((mode self = "rgb" /\ String.length s = 7) \/
     (mode self = "rgba" /\ String.length s = 9)).
Proof.
  intros Hd. unfold fromClient. rewrite Hd.
  destruct (negb _ && negb _) eqn:Hm; [discriminate|]. simpl.
  destruct (1 <? _)%nat; [discriminate|].
  destruct (PyStr.all_in hexchars (PyStr.lower v)) eqn:Ha; [|discriminate]. simpl.
  destruct (mode self =? "rgb")%string eqn:Hrgb.
  { apply String.eqb_eq in Hrgb. intros H.
    apply fromClient_rgb_alphabet in H as (s & -> & Hs & Hl); [|assumption].
    exists s. repeat split; auto using lower_hexchars. }
  destruct (mode self =? "rgba")%string eqn:Hrgba; [|discriminate Hm].
  apply String.eqb_eq in Hrgba. intros H.
  apply fromClient_rgba_alphabet in H as (s & -> & Hs & Hl); [|assumption].
  exists s. repeat split; auto using lower_hexchars.
Qed.

Lemma fromClient_stored_alphabet_witness :
  exists s, mkColorBone "rgb" (VStr "#aabbcc") = set_value (mkColorBone "rgb" VNone) s /\
    PyStr.all_in hexchars s = true /\ PyStr.lower s = s /\
    ((mode (mkColorBone "rgb" VNone) = "rgb" /\ String.length s = 7) \/
     (mode (mkColorBone "rgb" VNone) = "rgba" /\ String.length s = 9)).
Proof.
  apply (fromClient_stored_alphabet (mkColorBone "rgb" VNone) "c"
           {[ "c" := VStr "ABC" ]} "ABC").
  - vm_compute. reflexivity.
  - vm_compute. reflexivity.
Defined.

Lemma fromClient_rgb_by_length self x :
  if bool_decide (String.length x ∈ [3; 4; 6; 7])
  then exists s, fromClient_rgb self x = Ret (None, set_value self s)
  else fromClient_rgb self x = Ret (Some "Invalid value entered", self).
Proof.
  case_bool_decide as Hl.
  - rewrite !elem_of_cons, elem_of_nil in Hl.
    unfold fromClient_rgb. destruct Hl as [H|[H|[H|[H|[]]]]].
    + destruct x as [|a [|b [|c [|? ?]]]]; try discriminate H. simpl. eexists; reflexivity.
    + destruct x as [|a [|b [|c [|d [|? ?]]]]]; try discriminate H. simpl.
      eexists; reflexivity.
    + repeat (rewrite !H; simpl). eexists; reflexivity.
    + repeat (rewrite !H; simpl). eexists; reflexivity.
  - rewrite !elem_of_cons, elem_of_nil in Hl. unfold fromClient_rgb.
    assert ((String.length x =? 3)%nat = false) as -> by (apply Nat.eqb_neq; tauto).
    assert ((String.length x =? 4)%nat = false) as -> by (apply Nat.eqb_neq; tauto).
    simpl.
    assert ((String.length x =? 6)%nat = false) as -> by (apply Nat.eqb_neq; tauto).
    assert ((String.length x =? 7)%nat = false) as -> by (apply Nat.eqb_neq; tauto).
    reflexivity.
Qed.

Lemma fromClient_rgba_by_length self x :
  if bool_decide (String.length x ∈ [8; 9])
  then exists s, fromClient_rgba self x = Ret (None, set_value self s)
  else fromClient_rgba self x = Ret (Some "Invalid value entered", self).
Proof.
  case_bool_decide as Hl.
  - rewrite !elem_of_cons, elem_of_nil in Hl.
    unfold fromClient_rgba. destruct Hl as [H|[H|[]]];
      repeat (rewrite !H; simpl); eexists; reflexivity.
  - rewrite !elem_of_cons, elem_of_nil in Hl. unfold fromClient_rgba.
    assert ((String.length x =? 8)%nat = false) as -> by (apply Nat.eqb_neq; tauto).
    assert ((String.length x =? 9)%nat = false) as -> by (apply Nat.eqb_neq; tauto).
    reflexivity.
Qed.

(** X8: for a supplied string over the alphabet with at most one ['#'],
    acceptance is decided by the length alone: 3, 4, 6 or 7 characters in rgb
    mode, 8 or 9 in rgba mode; every other length is refused with
    "Invalid value entered" and the bone is unchanged. *)
Theorem fromClient_accepts_by_length (self : colorBone) (name : string)
    (data : gmap string pyval) (v : string) :
  valid_mode self ->
  data !! name = Some (VStr v) ->
  PyStr.count "#" (PyStr.lower v) <= 1 ->
  PyStr.all_in hexchars (PyStr.lower v) = true ->
  if accepted_length (mode self) (String.length v)
  then exists s, fromClient self name data = Ret (None, set_value self s)
  else fromClient self name data = Ret (Some "Invalid value entered", self).
Proof.
  intros Hm Hd Hc Ha. rewrite (fromClient_supplied _ _ _ _ Hm Hd).
  unfold fromClient_checked, accepted_length.
  apply Nat.ltb_ge in Hc. rewrite Hc, Ha. simpl.
  rewrite <- (lower_length v).
  destruct Hm as [-> | ->]; simpl.
  - rewrite orb_false_r. apply fromClient_rgb_by_length.
  - apply fromClient_rgba_by_length.
Qed.

Lemma fromClient_accepts_by_length_witness :
  fromClient (mkColorBone "rgb" VNone) "c" {[ "c" := VStr "12345" ]}
  = Ret (Some "Invalid value entered", mkColorBone "rgb" VNone).
Proof.
  apply (fromClient_accepts_by_length (mkColorBone "rgb" VNone) "c"
           {[ "c" := VStr "12345" ]} "12345").
  - left. reflexivity.
  - vm_compute. reflexivity.
  - vm_compute. lia.
  - vm_compute. reflexivity.
Defined.

(** ** Render.getTemplateFileName *)



Lemma join2_absolute path x : OsPath.join2 path (String "/" x) = String "/" x.
Proof. destruct x; reflexivity. Qed.

Lemma join_absolute_last a p x :
  fold_left OsPath.join2 (p ++ [String "/" x]) a = String "/" x.
Proof. rewrite fold_left_app. simpl. apply join2_absolute. Qed.

Lemma getTemplateFileName_NotFound_iff self w template ignoreStyle :
  raises_NotFound (getTemplateFileName self w template ignoreStyle)
  <-> Forall (fun p => isfile w p.1 = false) (probes self w template ignoreStyle).
Proof.
  rewrite getTemplateFileName_probes, <- find_none_Forall. unfold raises_NotFound.
  destruct (find _ _); split; try discriminate; eauto.
  intros [msg ?]. discriminate.
Qed.

(** X10: a template name that starts with ['/'] is looked up as an absolute
    path: [os.path.join] discards the project path, the template roots and
    the language, so only [template + postfix + ".html"] and
    [template + ".html"] are probed, and the call fails with Not-Found exactly
    when neither is a file. *)
Theorem getTemplateFileName_absolute_template (self : Render) (w : world)
    (t : string) (ignoreStyle : bool) :
  let template := String "/" t in
  raises_NotFound (getTemplateFileName self w template ignoreStyle) <->
  isfile w (template +:+ stylePostfix w ignoreStyle +:+ ".html") = false /\
  isfile w (template +:+ ".html") = false.
Proof.
  intros template.
  rewrite getTemplateFileName_NotFound_iff.
  unfold probes. rewrite !Forall_app, !Forall_map. cbn [fst].
  assert (forall pre, Forall (fun fn => isfile w (OsPath.join (projectBasePath w) (pre ++ [fn])) = false)
                        (fnames w template ignoreStyle)
                      <-> isfile w (template +:+ stylePostfix w ignoreStyle +:+ ".html") = false /\
                          isfile w (template +:+ ".html") = false) as Hpre.
  { intros pre. unfold fnames.
    destruct (currentLanguage w) as [lang|]; [destruct (negb (lang =? "")%string)|];
      rewrite ?Forall_cons, Forall_nil; unfold template, OsPath.join; simpl;
      rewrite ?join2_absolute, ?join_absolute_last; tauto. }
  rewrite (Hpre [htmlpath_of self; PyStr.split_head "_" template]).
  rewrite (Hpre [htmlpath_of self]).
  rewrite (Hpre ["viur"; "core"; "template"]). tauto.
Qed.

(** ** Render.renderSkelStructure and Render.renderBoneStructure *)

Lemma renderItems_filter rb errs its : forall res,
  renderItems rb errs its res = renderItems rb errs (List.filter retained its) res.
Proof.
  induction its as [|[key sl] its IH]; intros res; [reflexivity|].
  cbn [renderItems List.filter]. unfold retained at 1. cbn [fst snd].
  destruct sl as [b|v]; [|rewrite andb_false_r; apply IH].
  destruct (PyStr.contains "__" key) eqn:Hk; cbn [negb andb]; [apply IH|].
  cbn [renderItems]. rewrite Hk. destruct (rb b); [|reflexivity]. apply IH.
Qed.

(** X11: the rendered structure, or the exception raised, depends only on the
    retained fields: fields with "__" in their name and values that are not
    bones can be removed from the skeleton without changing the outcome. *)
Theorem renderSkelStructure_retained_only (ext : externals) (skel : skeleton) :
  renderSkelStructure ext skel = renderSkelStructure ext (retained_only skel).
Proof. unfold renderSkelStructure, retained_only. apply renderItems_filter. Qed.

Lemma renderItems_other rb errs its : forall res r (k : string),
  renderItems rb errs its res = Ret r ->
  k ∉ map fst its ->
  Py.dict_get (VStr k) r = Py.dict_get (VStr k) res.
Proof.
  induction its as [|[key sl] its IH]; intros res r k Hr Hk; simpl in *.
  - by injection Hr as <-.
  - apply not_elem_of_cons in Hk as [Hne Hk].
    destruct sl as [b|v]; [|by apply IH].
    destruct (PyStr.contains "__" key); [by apply IH|].
    apply bind_Ret in Hr as (d & _ & Hr).
    rewrite (IH _ _ _ Hr Hk), dict_get_set_str.
    destruct (String.eqb_spec key k); [congruence|reflexivity].
Qed.

Lemma renderItems_entry rb errs its : forall res r key b,
  renderItems rb errs its res = Ret r ->
  NoDup (map fst its) ->
  (key, IsBone b) ∈ its ->
  PyStr.contains "__" key = false ->
  exists d, rb b = Ret d /\
    Py.dict_get (VStr key) r
    = Some (Py.dict_set (VStr "error") (error_entry errs key) d).
Proof.
  induction its as [|[k sl] its IH]; intros res r key b Hr Hnd Hin Hk.
  - by apply elem_of_nil in Hin.
  - simpl in Hnd. apply NoDup_cons in Hnd as [Hnotin Hnd].
    apply elem_of_cons in Hin as [Heq|Hin].
    + injection Heq as <- <-. simpl in Hr. rewrite Hk in Hr.
      apply bind_Ret in Hr as (d & Hd & Hr). exists d. split; [assumption|].
      rewrite (renderItems_other _ _ _ _ _ _ Hr Hnotin), dict_get_set_str.
      by rewrite String.eqb_refl.
    + simpl in Hr. destruct sl as [b'|v]; [|by eapply IH].
      destruct (PyStr.contains "__" k); [by eapply IH|].
      apply bind_Ret in Hr as (d & _ & Hr). by eapply IH.
Qed.

(** X12: in the rendered structure of a skeleton with distinct field names,
    the entry of a retained field is the rendering of its own bone by
    [renderBoneStructure], with the [error] entry put on it. *)
Theorem renderSkelStructure_entry (ext : externals) (skel : skeleton)
    (res : structure) (key : string) (b : bone) :
  renderSkelStructure ext skel = Ret res ->
  NoDup (map fst (items skel)) ->
  (key, IsBone b) ∈ items skel ->
  PyStr.contains "__" key = false ->
  exists d, renderBoneStructure ext b = Ret d /\
    Py.dict_get (VStr key) res
    = Some (Py.dict_set (VStr "error") (error_entry (errors skel) key) d).
Proof. unfold renderSkelStructure. apply renderItems_entry. Qed.

Lemma renderSkelStructure_entry_witness :
  exists d, renderBoneStructure sample_externals str_bone = Ret d /\
    Py.dict_get (VStr "title") nested_structure
    = Some (Py.dict_set (VStr "error") (error_entry (errors nested_skel) "title") d).
Proof.
  apply (renderSkelStructure_entry sample_externals nested_skel).
  - vm_compute. reflexivity.
  - apply (bool_decide_unpack _). vm_compute. reflexivity.
  - apply list_elem_of_further, list_elem_of_here.
  - reflexivity.
Defined.

Lemma renderItems_returns_each rb errs its : forall res,
  is_Ret (renderItems rb errs its res) ->
  Forall (fun kv : string * slot =>
            match kv.2 with
            | IsBone b => PyStr.contains "__" kv.1 = false -> is_Ret (rb b)
            | NotBone _ => True
            end) its.
Proof.
  induction its as [|[key sl] its IH]; intros res Hr; [constructor|].
  simpl in Hr. constructor; simpl.
  - destruct sl as [b|v]; [|exact I]. intros Hk. rewrite Hk in Hr.
    destruct Hr as [r Hr]. apply bind_Ret in Hr as (d & Hd & _). by exists d.
  - destruct sl as [b|v]; [|by eapply IH].
    destruct (PyStr.contains "__" key); [by eapply IH|].
    destruct Hr as [r Hr]. apply bind_Ret in Hr as (d & _ & Hr).
    eapply IH. by exists r.
Qed.

Lemma render_structure_returns_wf ext :
  (forall b, is_Ret (renderBoneStructure ext b) -> wf_bone b = true) /\
  (forall s, is_Ret (renderSkelStructure ext s) -> wf_skel s = true).
Proof.
  set (P := fun b => is_Ret (renderBoneStructure ext b) -> wf_bone b = true).
  set (Q := fun s => is_Ret (renderSkelStructure ext s) -> wf_skel s = true).
  assert (HP : forall b, Forall Q (attrs_skeletons (extra b)) -> P b).
  { intros b Hsk. unfold P. rewrite wf_bone_eq, renderBoneStructure_eq.
    unfold wf_bone_body, renderBoneStructure_body. intros [d Hd].
    destruct (has_type b "relational").
    { destruct (extra b) as [m f u r| | | | | | |]; try discriminate Hd.
      simpl in Hsk. apply bind_Ret in Hd as (x & Hu & Hd).
      apply bind_Ret in Hd as (y & Hr & _).
      destruct u as [u|]; simpl in Hsk.
      - inversion Hsk as [|? ? Qu Hsk']; subst. inversion Hsk' as [|? ? Qr _]; subst.
        apply bind_Ret in Hu as (ru & Hu & _).
        rewrite Qu, Qr by (eexists; eassumption). reflexivity.
      - inversion Hsk as [|? ? Qr _]; subst.
        rewrite Qr by (eexists; eassumption). reflexivity. }
    destruct (has_type b "record").
    { destruct (extra b) as [m f [u|] r|f [u|]| | | | | |]; try discriminate Hd;
        simpl in Hsk; inversion Hsk as [|? ? Qu _]; subst;
        apply bind_Ret in Hd as (ru & Hu & _); apply Qu; eexists; eassumption. }
    destruct (has_type b "select"); [destruct (extra b); try discriminate Hd; reflexivity|].
    destruct (has_type b "date"); [destruct (extra b); try discriminate Hd; reflexivity|].
    destruct (has_type b "numeric"); [destruct (extra b); try discriminate Hd; reflexivity|].
    destruct (has_type b "text"); [destruct (extra b); try discriminate Hd; reflexivity|].
    destruct (has_type b "str"); [reflexivity|].
    destruct (has_type b "captcha"); [destruct (extra b); try discriminate Hd; reflexivity|].
    reflexivity. }
  assert (HQ : forall s,
    Forall (fun kv : string * slot =>
              match kv.2 with IsBone b => P b | NotBone _ => True end) (items s) -> Q s).
  { intros s Hall Hr. unfold renderSkelStructure in Hr.
    apply renderItems_returns_each in Hr.
    unfold wf_skel. rewrite forallb_forall.
    rewrite List.Forall_forall in *. intros [k sl] Hin.
    specialize (Hall _ Hin). specialize (Hr _ Hin). simpl in *.
    destruct sl as [b|v]; [|reflexivity].
    destruct (PyStr.contains "__" k); [reflexivity|]. simpl. apply Hall. by apply Hr. }
  split; [exact (bone_skel_ind P Q HP HQ) | exact (skel_bone_ind P Q HP HQ)].
Qed.

(** X13: [renderBoneStructure] returns exactly for the bones whose class
    provides the attributes read for their type tag (with a [using] skeleton
    for a record bone) and whose nested retained bones do; for every other
    bone it raises.  [renderSkelStructure] returns exactly when every retained
    bone is such a bone. *)
Theorem render_structure_returns_iff (ext : externals) :
  (forall b, is_Ret (renderBoneStructure ext b) <-> wf_bone b = true) /\
  (forall s, is_Ret (renderSkelStructure ext s) <-> wf_skel s = true).
Proof.
  destruct (render_structure_total ext) as [Tb Ts].
  destruct (render_structure_returns_wf ext) as [Wb Ws].
  split; intros x; (split; [auto | intros H; unfold is_Ret; auto]).
Qed.

(** X14: whatever the type of the bone, a rendered bone keeps its seven base
    entries: [descr], [type], [required], [multiple], [params], [visible] and
    [readOnly] hold the bone's own attributes; the entries added for the type
    never replace them. *)
Theorem renderBoneStructure_base_entries (ext : externals) (b : bone) (d : pdict) :
  renderBoneStructure ext b = Ret d ->
  Forall (fun kv => Py.dict_get kv.1 d = Some kv.2) (base_entries b).
Proof.
  rewrite renderBoneStructure_eq. unfold renderBoneStructure_body, base_entries.
  intros H.
  repeat match type of H with
         | (if ?c then _ else _) = _ => destruct c
         | match ?e with _ => _ end = _ => destruct e
         | _ ≫= _ = _ => apply bind_Ret in H as (? & _ & H)
         end;
    try discriminate H; injection H as <-; repeat constructor.
Qed.

Lemma renderBoneStructure_base_entries_witness :
  Forall (fun kv =>
            Py.dict_get kv.1
              (match renderBoneStructure sample_externals relational_bone with
               | Ret d => d | Raise _ => [] end) = Some kv.2)
         (base_entries relational_bone).
Proof.
  apply (renderBoneStructure_base_entries sample_externals).
  vm_compute. reflexivity.
Defined.

(** ** Render.renderBoneValue *)

Lemma set_renderPreparation_arms e r :
  Py.set_renderPreparation e = Ret r <-> arms e r.
Proof.
  split.
  - destruct e; simpl; intros [= <-]. unfold arms. eauto.
  - intros (oid & h & fields & -> & ->). reflexivity.
Qed.

Lemma arms_armed e r : arms e r -> armed r.
Proof. intros (oid & h & fields & _ & ->). unfold armed. eauto. Qed.

Lemma render_relation_entry b k r : render_relation b k = Ret r -> relation_entry b r.
Proof.
  unfold render_relation. intros H.
  apply bind_Ret in H as (with_using & Hu & H).
  apply bind_Ret in H as (usingData & Hrel & H).
  apply bind_Ret in H as (dest & _ & H).
  apply bind_Ret in H as (dest' & Hdest & H). injection H as <-.
  exists dest', usingData. split; [reflexivity|].
  split; [eapply arms_armed; by apply set_renderPreparation_arms|].
  destruct with_using.
  - split; [|congruence].
    apply bind_Ret in Hrel as (rel & _ & Hrel).
    destruct (Py.truthy rel); [|injection Hrel as <-; by left].
    right. eapply arms_armed. by apply set_renderPreparation_arms.
  - injection Hrel as <-. split; [by left | reflexivity].
Qed.

Lemma render_relations_entries b ks : forall rs,
  render_relations b ks = Ret rs ->
  length rs = length (List.filter Py.truthy ks) /\ Forall (relation_entry b) rs.
Proof.
  induction ks as [|k ks IH]; intros rs H; simpl in *.
  - injection H as <-. split; [reflexivity | constructor].
  - destruct (Py.truthy k); simpl in *; [|by apply IH].
    apply bind_Ret in H as (r & Hr & H). apply bind_Ret in H as (rs' & Hrs & H).
    injection H as <-. destruct (IH _ Hrs) as [Hlen Hall].
    split; [simpl; congruence|]. constructor; [by eapply render_relation_entry | assumption].
Qed.

Lemma render_relation_source b k r : render_relation b k = Ret r -> relation_of b k r.
Proof.
  unfold render_relation. intros H.
  apply bind_Ret in H as (with_using & Hu & H).
  apply bind_Ret in H as (usingData & Hrel & H).
  apply bind_Ret in H as (dest & Hd & H).
  apply bind_Ret in H as (dest' & Hdest & H). injection H as <-.
  exists dest, dest', usingData. split; [reflexivity|]. split; [assumption|].
  split; [by apply set_renderPreparation_arms|].
  destruct with_using.
  - right. split; [assumption|].
    apply bind_Ret in Hrel as (rel & Hg & Hrel). exists rel. split; [assumption|].
    destruct (Py.truthy rel).
    + right. split; [reflexivity|]. by apply set_renderPreparation_arms.
    + left. injection Hrel as <-. by split.
  - left. injection Hrel as <-. by split.
Qed.

Lemma render_relations_sources b ks : forall rs,
  render_relations b ks = Ret rs ->
  Forall2 (relation_of b) (List.filter Py.truthy ks) rs.
Proof.
  induction ks as [|k ks IH]; intros rs H; simpl in *.
  - injection H as <-. constructor.
  - destruct (Py.truthy k); simpl in *; [|by apply IH].
    apply bind_Ret in H as (r & Hr & H). apply bind_Ret in H as (rs' & Hrs & H).
    injection H as <-. constructor; [by apply render_relation_source | by apply IH].
Qed.

(** X15: a relational bone renders a list of relations as a list with one
    entry per true element, in order: the i-th entry is made from the i-th
    true element.  Each entry is a dictionary with exactly the keys [dest] and
    [rel]; [dest] is the element's [dest] entity with [renderPreparation]
    set; [rel] is [None] or the element's [rel] entity with
    [renderPreparation] set, and it is always [None] when the bone has no
    [using] skeleton. *)
Theorem renderBoneValue_relational_list (ext : externals) (b : bone) (skel : skeleton)
    (key : pyval) (ks : list pyval) (isLanguageWrapped : bool) (r : rendered) :
  unwrapped b isLanguageWrapped ->
  has_type b "select" = false ->
  has_type b "relational" = true ->
  renderBoneValue ext b skel key (VList ks) isLanguageWrapped = Ret r ->
  exists rs, r = RValue (VList rs) /\
    Forall2 (relation_of b) (List.filter Py.truthy ks) rs /\
    length rs = length (List.filter Py.truthy ks) /\
    Forall (relation_entry b) rs.
Proof.
  unfold unwrapped, renderBoneValue, renderBoneValue_dispatch. intros -> -> -> H.
  apply bind_Ret in H as (rs & Hrs & H). injection H as <-.
  exists rs. split; [reflexivity|].
  split; [by apply render_relations_sources | by apply render_relations_entries].
Qed.

Lemma renderBoneValue_relational_list_witness :
  exists rs,
    RValue (VList [ VDict [ (VStr "dest", VEntity 7 (Some RenderBoneValue) []);
                            (VStr "rel", VEntity 8 (Some RenderBoneValue) []) ];
                    VDict [ (VStr "dest", VEntity 9 (Some RenderBoneValue) []);
                            (VStr "rel", VNone) ] ]) = RValue (VList rs) /\
    Forall2 (relation_of relational_bone)
      (List.filter Py.truthy
         [ VNone;
           VDict [ (VStr "dest", VEntity 7 None []); (VStr "rel", VEntity 8 None []) ];
           VDict [];
           VDict [ (VStr "dest", VEntity 9 None []); (VStr "rel", VNone) ] ]) rs /\
    length rs
    = length (List.filter Py.truthy
                [ VNone;
                  VDict [ (VStr "dest", VEntity 7 None []); (VStr "rel", VEntity 8 None []) ];
                  VDict [];
                  VDict [ (VStr "dest", VEntity 9 None []); (VStr "rel", VNone) ] ]) /\
    Forall (relation_entry relational_bone) rs.
Proof.
  apply (renderBoneValue_relational_list sample_externals relational_bone sample_skel
           (VStr "owner") _ false).
  - reflexivity.
  - reflexivity.
  - reflexivity.
  - vm_compute. reflexivity.
Defined.

Lemma mapM_set_renderPreparation_arms es : forall rs,
  mapM Py.set_renderPreparation es = Ret rs <-> Forall2 arms es rs.
Proof.
  induction es as [|e es IH]; intros rs; simpl.
  - split; [intros [= <-]; constructor | intros H; by inversion H].
  - split.
    + intros H. apply bind_Ret in H as (r & Hr & H).
      apply bind_Ret in H as (rs' & Hrs & H). injection H as <-.
      constructor; [by apply set_renderPreparation_arms | by apply IH].
    + intros H. inversion H as [|? r ? rs' Hr Hrs]; subst.
      apply set_renderPreparation_arms in Hr. apply IH in Hrs.
      rewrite Hr. simpl. rewrite Hrs. reflexivity.
Qed.

Lemma Forall2_arms_entities es rs : Forall2 arms es rs -> forallb is_entity es = true.
Proof.
  induction 1 as [|e r es rs (oid & h & f & -> & _) _ IH]; [reflexivity|].
  simpl. exact IH.
Qed.

Lemma entities_arm es : forallb is_entity es = true -> exists rs, Forall2 arms es rs.
Proof.
  induction es as [|e es IH]; simpl; [intros _; exists []; constructor|].
  intros [He Hes]%andb_true_iff. destruct (IH Hes) as [rs Hrs].
  destruct e; try discriminate He.
  eexists (_ :: rs). constructor; [|exact Hrs]. unfold arms. eauto.
Qed.

(** X16: a record bone with [multiple] set renders a non-empty list of
    entities as the list of the same entities, in the same order, each with
    [renderPreparation] set; if some element is not an entity it raises
    [AttributeError]. *)
Theorem renderBoneValue_record_multiple (ext : externals) (b : bone) (skel : skeleton)
    (key : pyval) (entries : list pyval) (isLanguageWrapped : bool) :
  unwrapped b isLanguageWrapped ->
  has_type b "select" = false ->
  has_type b "relational" = false ->
  has_type b "record" = true ->
  multiple b = true ->
  entries <> [] ->
  if forallb is_entity entries then
    exists rs, renderBoneValue ext b skel key (VList entries) isLanguageWrapped
               = Ret (RValue (VList rs)) /\ Forall2 arms entries rs
  else renderBoneValue ext b skel key (VList entries) isLanguageWrapped
       = Raise AttributeError.
Proof.
  unfold unwrapped, renderBoneValue, renderBoneValue_dispatch.
  intros -> -> -> -> -> Hne.
  assert (Py.truthy (VList entries) = true) as ->
    by (destruct entries; [congruence | reflexivity]).
  cbn [Py.iter mbind outcome_bind].
  destruct (forallb is_entity entries) eqn:Hall.
  - destruct (entities_arm _ Hall) as [rs Hrs]. exists rs.
    split; [|assumption]. apply mapM_set_renderPreparation_arms in Hrs.
    by rewrite Hrs.
  - destruct (mapM Py.set_renderPreparation entries) as [rs|e] eqn:E.
    + apply mapM_set_renderPreparation_arms, Forall2_arms_entities in E. congruence.
    + by apply mapM_set_renderPreparation_raises in E as ->.
Qed.

Lemma renderBoneValue_record_multiple_witness :
  exists rs, renderBoneValue sample_externals record_bone sample_skel (VStr "lines")
               (VList [VEntity 1 None []; VEntity 2 None []]) false
             = Ret (RValue (VList rs)) /\
             Forall2 arms [VEntity 1 None []; VEntity 2 None []] rs.
Proof.
  apply (renderBoneValue_record_multiple sample_externals record_bone sample_skel
           (VStr "lines") [VEntity 1 None []; VEntity 2 None []] false);
    try reflexivity.
  discriminate.
Defined.

Lemma renderBoneValue_wrapped ext b skel key v :
  renderBoneValue ext b skel key v true = renderBoneValue_dispatch ext b v.
Proof. unfold renderBoneValue. by rewrite andb_false_r. Qed.

Lemma bool_decide_elem_of_cons_ne (x y : string) (l : list string) :
  y <> x -> bool_decide (x ∈ y :: l) = bool_decide (x ∈ l).
Proof.
  intros Hne. apply bool_decide_ext. rewrite elem_of_cons.
  split; [intros [?|?]; [congruence|assumption] | by right].
Qed.

Lemma render_languages_lookup ext b skel key value langs : forall res kvs,
  render_languages ext b value langs res = Ret kvs ->
  forall l, Py.dict_get (VStr l) kvs
            = if bool_decide (l ∈ langs) && bool_decide (is_Some (Py.dict_get (VStr l) value))
              then language_entry ext b skel key value l
              else Py.dict_get (VStr l) res.
Proof.
  induction langs as [|language langs IH]; intros res kvs H l; simpl in H.
  - injection H as <-. reflexivity.
  - destruct (Py.dict_get (VStr language) value) as [v0|] eqn:Hv0.
    + apply bind_Ret in H as (r & Hr & H). rewrite (IH _ _ H l), dict_get_set_str.
      destruct (String.eqb_spec language l) as [<-|Hne].
      * assert (language_entry ext b skel key value language = Some r) as ->.
        { unfold language_entry. by rewrite Hv0, renderBoneValue_wrapped, Hr. }
        rewrite (bool_decide_eq_true_2 (language ∈ language :: langs)) by (by left).
        rewrite (bool_decide_eq_true_2 (is_Some _)) by (rewrite Hv0; eauto).
        by destruct (bool_decide (language ∈ langs)).
      * by rewrite (bool_decide_elem_of_cons_ne _ _ _ Hne).
    + rewrite (IH _ _ H l).
      destruct (String.eqb_spec language l) as [<-|Hne].
      * rewrite (bool_decide_eq_false_2 (is_Some _)) by (rewrite Hv0; by intros [? ?]).
        by rewrite !andb_false_r.
      * by rewrite (bool_decide_elem_of_cons_ne _ _ _ Hne).
Qed.

(** X17: for a bone that declares languages and a value not yet unwrapped,
    a value that is not a dictionary is dropped: the result is an empty
    [LanguageWrapper] and nothing is raised.  For a dictionary value the
    wrapper holds, for each declared language that is a key of the
    dictionary, the rendering of that language's value with
    [isLanguageWrapped=True], and nothing else. *)
Theorem renderBoneValue_languages (ext : externals) (b : bone) (skel : skeleton)
    (key boneValue : pyval) :
  languages_truthy b = true ->
  (Py.is_dict boneValue = false ->
     renderBoneValue ext b skel key boneValue false
     = Ret (RLanguage (default [] (languages b)) []))
  /\ forall value r,
       boneValue = VDict value ->
       renderBoneValue ext b skel key boneValue false = Ret r ->
       exists kvs, r = RLanguage (default [] (languages b)) kvs /\
         forall l, Py.dict_get (VStr l) kvs
                   = if bool_decide (l ∈ default [] (languages b))
                     then language_entry ext b skel key value l
                     else None.
Proof.
  intros Hl. unfold renderBoneValue. rewrite Hl. simpl. split.
  - destruct boneValue; try reflexivity. discriminate.
  - intros value r -> H. apply bind_Ret in H as (kvs & Hk & H). injection H as <-.
    exists kvs. split; [reflexivity|]. intros l.
    rewrite (render_languages_lookup _ _ skel key _ _ _ _ Hk l). simpl.
    destruct (bool_decide (l ∈ default [] (languages b))); simpl; [|reflexivity].
    case_bool_decide as Hs; [reflexivity|].
    unfold language_entry. destruct (Py.dict_get (VStr l) value); [|reflexivity].
    exfalso. apply Hs. eauto.
Qed.

Lemma renderBoneValue_languages_witness :
  renderBoneValue sample_externals str_bone_i18n sample_skel (VStr "title")
    (VStr "plain") false
  = Ret (RLanguage (default [] (languages str_bone_i18n)) []).
Proof.
  apply (renderBoneValue_languages sample_externals str_bone_i18n sample_skel
           (VStr "title") (VStr "plain") eq_refl).
  reflexivity.
Defined.

Lemma render_choices_lookup b values ss : forall acc d,
  get_values b = Ret values ->
  render_choices b (map VStr ss) acc = Ret d ->
  forall s, Py.dict_get (VStr s) d
            = if bool_decide (s ∈ ss)
              then Some (default (VStr s) (Py.dict_get (VStr s) values))
              else Py.dict_get (VStr s) acc.
Proof.
  intros acc d Hv. revert acc d.
  induction ss as [|s0 ss IH]; intros acc d H s; simpl in H.
  - injection H as <-. reflexivity.
  - rewrite Hv in H. simpl in H. rewrite (IH _ _ H s).
    destruct (decide (s ∈ ss)) as [Hin|Hnin].
    + rewrite !bool_decide_eq_true_2; [reflexivity| |assumption]. by right.
    + rewrite (bool_decide_eq_false_2 _ Hnin), dict_get_set_str.
      destruct (String.eqb_spec s0 s) as [->|Hne].
      * rewrite bool_decide_eq_true_2 by (by left). reflexivity.
      * rewrite bool_decide_eq_false_2; [reflexivity|].
        rewrite elem_of_cons. intros [?|?]; congruence.
Qed.

Lemma render_choices_strings_return b values ss : forall acc,
  get_values b = Ret values -> is_Ret (render_choices b (map VStr ss) acc).
Proof.
  intros acc Hv. revert acc.
  induction ss as [|s0 ss IH]; intros acc; simpl; [by eexists|].
  rewrite Hv. simpl. apply IH.
Qed.

(** X18: a select bone renders a list of strings as a dictionary whose keys
    are exactly the strings of the list; each maps to the label the bone
    lists for it, or to itself when the bone does not list it. *)
Theorem renderBoneValue_select_list (ext : externals) (b : bone) (skel : skeleton)
    (key : pyval) (values : list (pyval * pyval)) (ss : list string)
    (isLanguageWrapped : bool) :
  unwrapped b isLanguageWrapped ->
  has_type b "select" = true ->
  get_values b = Ret values ->
  exists d,
    renderBoneValue ext b skel key (VList (map VStr ss)) isLanguageWrapped
    = Ret (RValue (VDict d)) /\
    forall s, Py.dict_get (VStr s) d
              = if bool_decide (s ∈ ss)
                then Some (default (VStr s) (Py.dict_get (VStr s) values))
                else None.
Proof.
  unfold unwrapped, renderBoneValue, renderBoneValue_dispatch. intros -> -> Hv.
  destruct (render_choices_strings_return b values ss [] Hv) as [d Hd].
  exists d. rewrite Hd. split; [reflexivity|].
  intros s. by rewrite (render_choices_lookup _ _ _ _ _ Hv Hd s).
Qed.

Lemma renderBoneValue_select_list_witness :
  exists d,
    renderBoneValue sample_externals select_bone sample_skel (VStr "colour")
      (VList (map VStr ["g"; "x"])) false
    = Ret (RValue (VDict d)) /\
    forall s, Py.dict_get (VStr s) d
              = if bool_decide (s ∈ ["g"; "x"])
                then Some (default (VStr s)
                             (Py.dict_get (VStr s)
                                [ (VStr "r", VStr "Red"); (VStr "g", VStr "Green") ]))
                else None.
Proof.
  apply (renderBoneValue_select_list sample_externals select_bone sample_skel
           (VStr "colour") _ ["g"; "x"] false); reflexivity.
Defined.

(** ** Render.list and Render.listRootNodes *)

(** X19: in [listRootNodes] only the presence of the parent's
    [listRepositoriesTemplate] attribute matters, never its value: with no
    template given, the name looked up is the parent's [listTemplate], and
    when the parent has no [listTemplate] the call raises [AttributeError]
    before any template is looked up. *)
Theorem listRootNodes_repositories_template_unused (w : world)
    (parentList : option string) (repos1 repos2 : string)
    (hp : option string) (lt lrt : string) (tpl : option string) :
  let self1 := mkRender (Some (mkParent parentList (Some repos1))) hp lt lrt in
  let self2 := mkRender (Some (mkParent parentList (Some repos2))) hp lt lrt in
  listRootNodes self1 w tpl = listRootNodes self2 w tpl
  /\ (Py.truthy_str tpl = false ->
      match parentList with
      | Some t => t <> "" -> listRootNodes_tpl self1 tpl = Ret t
      | None => listRootNodes self1 w tpl = (Raise AttributeError, [])
      end).
Proof.
  intros self1 self2. split; [reflexivity|].
  intros Ht. unfold listRootNodes, listRootNodes_tpl. simpl. rewrite Ht.
  destruct parentList as [t|]; [|reflexivity].
  intros Hne. simpl. apply String.eqb_neq in Hne. by rewrite Hne.
Qed.

Lemma resolve_with_fallback_result self w tpl fn :
  (resolve_with_fallback self w tpl []).1 = Ret fn ->
  getTemplateFileName self w tpl false = Ret fn \/
  (raises_NotFound (getTemplateFileName self w tpl false) /\
   getTemplateFileName self w "list" false = Ret fn).
Proof.
  destruct (getTemplateFileName self w tpl false) as [fn'|e] eqn:E.
  - rewrite (resolve_with_fallback_found _ _ _ _ E). simpl. intros [= <-]. by left.
  - pose proof (getTemplateFileName_raises _ _ _ _ _ E) as ->.
    rewrite resolve_with_fallback_retry by (eexists; exact E). simpl.
    intros H. right. split; [by eexists | assumption].
Qed.

(** X20: when [list] gets as far as rendering, every member of the list it
    hands to the template is the corresponding skeleton of [skellist] with
    [renderPreparation] set, in the same order, and the file is the one found
    for the requested name, or for "list" after a miss. *)
Theorem list_arms_every_skeleton (self : Render) (w : world) (skellist : list pyval)
    (tpl : option string) (fn : string) (prepared : list pyval) :
  (list_ self w skellist tpl).1 = Ret (fn, prepared) ->
  Forall2 arms skellist prepared /\
  (getTemplateFileName self w (list_tpl self tpl) false = Ret fn \/
   (raises_NotFound (getTemplateFileName self w (list_tpl self tpl) false) /\
    getTemplateFileName self w "list" false = Ret fn)).
Proof.
  unfold list_.
  destruct (resolve_with_fallback self w (list_tpl self tpl) []) as [r log] eqn:E.
  simpl. intros H. apply bind_Ret in H as (fn' & -> & H).
  apply bind_Ret in H as (sk & Hsk & H). injection H as <- <-.
  split; [by apply mapM_set_renderPreparation_arms|].
  apply resolve_with_fallback_result. by rewrite E.
Qed.

Lemma list_arms_every_skeleton_witness :
  Forall2 arms [VEntity 1 None []; VEntity 2 None []]
               [VEntity 1 (Some RenderBoneValue) []; VEntity 2 (Some RenderBoneValue) []]
  /\ (getTemplateFileName defaultRender
        (mkWorld None None "/app" (fun p => String.eqb p "/app/html/list.html"))
        (list_tpl defaultRender (Some "user_list")) false = Ret "list.html"
      \/ (raises_NotFound
            (getTemplateFileName defaultRender
               (mkWorld None None "/app" (fun p => String.eqb p "/app/html/list.html"))
               (list_tpl defaultRender (Some "user_list")) false)
          /\ getTemplateFileName defaultRender
               (mkWorld None None "/app" (fun p => String.eqb p "/app/html/list.html"))
               "list" false = Ret "list.html")).
Proof.
  apply (list_arms_every_skeleton defaultRender
           (mkWorld None None "/app" (fun p => String.eqb p "/app/html/list.html"))
           [VEntity 1 None []; VEntity 2 None []] (Some "user_list")).
  vm_compute. reflexivity.
Defined.

(** ** Render.renderEmail *)

Lemma linebreak_isspace c : Email.is_linebreak c = true -> Email.isspace c = true.
Proof.
  destruct c as [[] [] [] [] [] [] [] []]; vm_compute; intros H;
    first [reflexivity | discriminate H].
Qed.

Lemma lstrip_blank s : Email.lstrip s = "" <-> blank s = true.
Proof.
  induction s as [|c s IH]; simpl; [tauto|].
  destruct (Email.isspace c); simpl; [exact IH|]. split; discriminate.
Qed.

Lemma lstrip_head s c t : Email.lstrip s = String c t -> Email.isspace c = false.
Proof.
  induction s as [|d s IH]; simpl; [discriminate|].
  destruct (Email.isspace d) eqn:E; [exact IH|]. intros [= <- _]. exact E.
Qed.

Lemma lstrip_idem s : Email.lstrip (Email.lstrip s) = Email.lstrip s.
Proof.
  destruct (Email.lstrip s) as [|c t] eqn:E; [reflexivity|].
  simpl. by rewrite (lstrip_head _ _ _ E).
Qed.

Lemma splitlines_head c t :
  Email.is_linebreak c = false ->
  exists l ls, Email.splitlines (String c t) = String c l :: ls.
Proof. intros H. simpl. rewrite H. destruct (Email.splitlines t); eauto. Qed.

Lemma splitlines_single s :
  one_line s = true -> s <> "" -> Email.splitlines s = [s].
Proof.
  induction s as [|c s IH]; [congruence|]. simpl.
  intros [Hc Hs]%andb_true_iff _. apply negb_true_iff in Hc. rewrite Hc.
  destruct s as [|d s']; [reflexivity|]. rewrite IH by (assumption || discriminate).
  reflexivity.
Qed.

Lemma splitlines_lines n : forall s,
  String.length s <= n -> Forall (fun l => one_line l = true) (Email.splitlines s).
Proof.
  induction n as [|n IH]; intros s Hn.
  - destruct s; [constructor | simpl in Hn; lia].
  - destruct s as [|c s]; [constructor|]. simpl in Hn. simpl.
    assert (Forall (fun l => one_line l = true) (Email.splitlines s)) as Hs
      by (apply IH; lia).
    destruct (Email.is_linebreak c) eqn:Hc.
    + constructor; [reflexivity|].
      destruct (Ascii.eqb c "013"); [|exact Hs].
      destruct s as [|d s']; [exact Hs|].
      destruct (Ascii.eqb d "010"); [|exact Hs]. apply IH. simpl in Hn. lia.
    + destruct (Email.splitlines s) as [|l ls]; constructor.
      * simpl. by rewrite Hc.
      * constructor.
      * inversion Hs; subst. simpl. by rewrite Hc.
      * by inversion Hs.
Qed.

(** X21: the end of [renderEmail] raises [IndexError] exactly when the
    rendered text is blank (empty or whitespace only); on every other text it
    returns a subject and a body. *)
Theorem subject_and_body_blank (linesep rendered : string) :
  if blank rendered
  then Email.subject_and_body linesep rendered = Raise IndexError
  else is_Ret (Email.subject_and_body linesep rendered).
Proof.
  unfold Email.subject_and_body.
  destruct (blank rendered) eqn:Hb.
  - apply lstrip_blank in Hb. rewrite Hb. reflexivity.
  - destruct (Email.lstrip rendered) as [|c t] eqn:E.
    { apply lstrip_blank in E. congruence. }
    destruct (Email.splitlines (String c t)) as [|l ls] eqn:Hl.
    + pose proof (lstrip_head _ _ _ E) as Hc.
      destruct (splitlines_head c t) as (l & ls & Hl').
      { destruct (Email.is_linebreak c) eqn:Hlb; [|reflexivity].
        apply linebreak_isspace in Hlb. congruence. }
      congruence.
    + destruct (length (l :: ls) =? 1)%nat; by eexists.
Qed.

(** X22: a text that, once its leading whitespace is removed, is a single
    line without any line boundary gives an empty subject; the line is the
    body. *)
Theorem subject_and_body_single_line (linesep rendered : string) :
  blank rendered = false ->
  one_line (Email.lstrip rendered) = true ->
  Email.subject_and_body linesep rendered = Ret ("", Email.lstrip rendered).
Proof.
  intros Hb H1. unfold Email.subject_and_body.
  rewrite splitlines_single; [|assumption|].
  - simpl. by rewrite lstrip_idem.
  - intros E. apply lstrip_blank in E. congruence.
Qed.

Lemma subject_and_body_single_line_witness :
  Email.subject_and_body (String "010" "") "  Hello world"
  = Ret ("", Email.lstrip "  Hello world").
Proof. apply subject_and_body_single_line; vm_compute; reflexivity. Defined.

(** X23: whenever the end of [renderEmail] returns, the subject holds no line
    boundary, the body has no leading whitespace, and the subject is empty
    exactly when the text, without its leading whitespace, has a single
    line; with more lines the subject is the first line, which is not
    empty. *)
Theorem subject_and_body_shape (linesep rendered subject body : string) :
  Email.subject_and_body linesep rendered = Ret (subject, body) ->
  one_line subject = true /\
  Email.lstrip body = body /\
  (subject = "" <-> length (Email.splitlines (Email.lstrip rendered)) = 1) /\
  (subject <> "" ->
   exists rest, Email.splitlines (Email.lstrip rendered) = subject :: rest /\
                body = Email.lstrip (String.concat linesep rest)).
Proof.
  unfold Email.subject_and_body.
  pose proof (splitlines_lines _ (Email.lstrip rendered) (Nat.le_refl _)) as Hlines.
  destruct (Email.lstrip rendered) as [|c t] eqn:E; [discriminate|].
  pose proof (lstrip_head _ _ _ E) as Hc.
  destruct (splitlines_head c t) as (l & ls & Hl).
  { destruct (Email.is_linebreak c) eqn:Hlb; [|reflexivity].
    apply linebreak_isspace in Hlb. congruence. }
  rewrite Hl in *. destruct ls as [|l2 ls]; cbn [length Nat.eqb].
  - intros [= <- <-].
    split; [reflexivity|]. split; [rewrite Hc; simpl; by rewrite Hc|].
    split; [tauto | congruence].
  - intros [= <- <-]. inversion Hlines; subst.
    split; [assumption|]. split; [apply lstrip_idem|].
    split; [split; discriminate|].
    intros _. eexists. split; reflexivity.
Qed.

Lemma subject_and_body_shape_witness :
  one_line "Welcome" = true /\
  Email.lstrip "Dear user," = "Dear user," /\
  ("Welcome" = "" <->
   length (Email.splitlines (Email.lstrip (String "010" ("Welcome" +:+ String "010" "Dear user,")))) = 1) /\
  ("Welcome" <> "" ->
   exists rest,
     Email.splitlines (Email.lstrip (String "010" ("Welcome" +:+ String "010" "Dear user,")))
     = "Welcome" :: rest /\
     "Dear user," = Email.lstrip (String.concat (String "010" "") rest)).
Proof.
  apply (subject_and_body_shape (String "010" "")
           (String "010" ("Welcome" +:+ String "010" "Dear user,"))).
  vm_compute. reflexivity.
Defined.

(** ** userBone *)

(** X24: a bone on which [performMagic] can ever act was made invisible and
    single-valued by its constructor.  A bone built without magic flags keeps
    what it was given, and a bone built with [creationMagic] alone is left
    alone on an edit: in both cases [performMagic] asks for nothing, calls
    nothing and returns [None]. *)
Theorem performMagic_acts_on_hidden_bones (str_object : pyval -> string)
    (fromClient : string -> gmap string pyval -> outcome pyval) (currentUser : pyval)
    (creationMagic updateMagic visible0 multiple0 isAdd : bool) :
  let self := UserBone.init creationMagic updateMagic visible0 multiple0 in
  ((UserBone.performMagic str_object fromClient currentUser self isAdd).2 <> [] ->
     UserBone.visible self = false /\ UserBone.multiple self = false)
  /\ (creationMagic = false -> updateMagic = false ->
        UserBone.visible self = visible0 /\ UserBone.multiple self = multiple0 /\
        UserBone.performMagic str_object fromClient currentUser self isAdd
        = (Ret VNone, []))
  /\ (updateMagic = false -> isAdd = false ->
        UserBone.performMagic str_object fromClient currentUser self isAdd
        = (Ret VNone, [])).
Proof.
  intros self. unfold self, UserBone.init, UserBone.performMagic.
  split; [|split].
  - destruct creationMagic, updateMagic; simpl; try (intros _; split; reflexivity).
    intros H. by destruct H.
  - intros -> ->. simpl. repeat split.
  - intros -> ->. destruct creationMagic; reflexivity.
Qed.
